(** * Response normalisation and tool dispatch of the Revit MCP server

    A shallow embedding of [tools/utils.py] ([format_response]) and of the
    tool handlers of [tools/code_execution_tools.py], [tools/family_tools.py],
    [tools/selection_tools.py] and [tools/modification_tools.py], with the
    properties the specification states about them.

    Python values are the values a JSON document decodes to.  A [str] is a
    Rocq [string] holding its UTF-8 bytes; a [dict] is an association list in
    insertion order whose keys are pairwise different ([wf_value]); a [float]
    is carried by its [repr] text, which determines it. *)

From Stdlib Require Import String Ascii List ZArith Bool Lia.
From Stdlib Require Import DecimalString.
Import ListNotations.
Local Open Scope list_scope.
Local Open Scope string_scope.

(** ** Python values *)

Module Py.

#[local] Set Warnings "-register-all".

Inductive value : Type :=
| VNone
| VBool (b : bool)
| VInt (z : Z)
| VFloat (r : string)
| VStr (s : string)
| VList (l : list value)
| VDict (d : list (string * value)).

Definition dict := list (string * value).

(** Exception classes the modelled code raises or names in an [except]. *)
Inductive exn_class : Type :=
| ConnectionError
| ValueError
| RuntimeError
| AttributeError
| TypeError
| TimeoutError
| OtherException.

Record exn : Type := Exn { exn_cls : exn_class; exn_msg : string }.

(** The outcome of evaluating a Python expression or call. *)
Inductive result (A : Type) : Type :=
| Return (a : A)
| Raise (e : exn).
Arguments Return {A} a.
Arguments Raise {A} e.

(** *** dict operations *)

(** [d.get(k)] / [d[k]] on a present key; [None] is "key absent". *)
Fixpoint lookup (k : string) (d : dict) : option value :=
  match d with
  | [] => None
  | (k', v) :: d' => if String.eqb k k' then Some v else lookup k d'
  end.

(** [k in d] *)
Definition mem (k : string) (d : dict) : bool :=
  match lookup k d with Some _ => true | None => false end.

(** [d.get(k, default)] *)
Definition get (k : string) (default : value) (d : dict) : value :=
  match lookup k d with Some v => v | None => default end.

(** [len(d)] *)
Definition len (d : dict) : nat := length d.

(** [d[k] = v]: an existing key keeps its place, a new key goes last. *)
Fixpoint set (k : string) (v : value) (d : dict) : dict :=
  match d with
  | [] => [(k, v)]
  | (k', v') :: d' =>
      if String.eqb k k' then (k', v) :: d' else (k', v') :: set k v d'
  end.

Definition keys (d : dict) : list string := map fst d.

Fixpoint distinct (l : list string) : bool :=
  match l with
  | [] => true
  | k :: l' => negb (existsb (String.eqb k) l') && distinct l'
  end.

(** Every dict inside the value has pairwise different keys. *)
Fixpoint wf_value (v : value) : bool :=
  match v with
  | VList l => forallb wf_value l
  | VDict d =>
      distinct (keys d) &&
      (fix wf_items (d : dict) : bool :=
         match d with
         | [] => true
         | (_, x) :: d' => wf_value x && wf_items d'
         end) d
  | _ => true
  end.

(** *** isinstance, truth value, type names *)

Definition is_dict (v : value) : bool :=
  match v with VDict _ => true | _ => false end.

Definition is_str (v : value) : bool :=
  match v with VStr _ => true | _ => false end.

(** [bool(v)], the test of [if v:] and the choice of [v or w]. *)
Definition truthy (v : value) : bool :=
  match v with
  | VNone => false
  | VBool b => b
  | VInt z => negb (Z.eqb z 0)
  | VFloat r => negb (String.eqb r "0.0" || String.eqb r "-0.0")
  | VStr s => negb (String.eqb s "")
  | VList l => match l with [] => false | _ => true end
  | VDict d => match d with [] => false | _ => true end
  end.

(** [v or w] *)
Definition or_else (v w : value) : value := if truthy v then v else w.

(** [v != n] for a small [int] literal [n]: numbers compare by value, a
    [float] equals [n] when its text is that of [float(n)], and a value of
    any other type differs. *)
Definition ne_int (v : value) (n : Z) : bool :=
  match v with
  | VInt z => negb (Z.eqb z n)
  | VBool b => negb (Z.eqb (if b then 1 else 0) n)
  | VFloat r => negb (String.eqb r (NilZero.string_of_int (Z.to_int n) ++ ".0"))
  | _ => true
  end.

(** [type(v).__name__] *)
Definition type_name (v : value) : string :=
  match v with
  | VNone => "NoneType"
  | VBool _ => "bool"
  | VInt _ => "int"
  | VFloat _ => "float"
  | VStr _ => "str"
  | VList _ => "list"
  | VDict _ => "dict"
  end.

(** *** str methods *)

(** [sep.join(parts)] on a list of [str]. *)
Fixpoint join (sep : string) (parts : list string) : string :=
  match parts with
  | [] => ""
  | [p] => p
  | p :: rest => p ++ sep ++ join sep rest
  end.

Definition lower_ascii (c : ascii) : ascii :=
  let n := nat_of_ascii c in
  if (65 <=? n)%nat && (n <=? 90)%nat then ascii_of_nat (n + 32) else c.

(** [s.lower()] on the ASCII letters; bytes of other code points are kept,
    and no such code point lowers to the text of an ASCII word. *)
Fixpoint lower (s : string) : string :=
  match s with
  | EmptyString => EmptyString
  | String c s' => String (lower_ascii c) (lower s')
  end.

(** *** str() and repr() *)

Definition hex_digit (n : nat) : ascii :=
  if (n <? 10)%nat then ascii_of_nat (48 + n) else ascii_of_nat (87 + n).

(** Two lower-case hexadecimal digits of a byte. *)
Definition hex2 (c : ascii) : string :=
  let n := nat_of_ascii c in
  String (hex_digit (n / 16)) (String (hex_digit (n mod 16)) EmptyString).

Definition int_str (z : Z) : string := NilZero.string_of_int (Z.to_int z).

Fixpoint contains_char (c : ascii) (s : string) : bool :=
  match s with
  | EmptyString => false
  | String c' s' => Ascii.eqb c c' || contains_char c s'
  end.

Definition squote : ascii := ascii_of_nat 39.
Definition dquote : ascii := ascii_of_nat 34.
Definition bslash : ascii := ascii_of_nat 92.
Definition nl : string := String (ascii_of_nat 10) EmptyString.

(** The body of [repr(s)] between the quotes [q]. *)
Fixpoint repr_body (q : ascii) (s : string) : string :=
  match s with
  | EmptyString => EmptyString
  | String c s' =>
      let n := nat_of_ascii c in
      (if Ascii.eqb c q || Ascii.eqb c bslash then String bslash (String c EmptyString)
       else if (n =? 9)%nat then String bslash "t"
       else if (n =? 10)%nat then String bslash "n"
       else if (n =? 13)%nat then String bslash "r"
       else if (n <? 32)%nat || (n =? 127)%nat then String bslash ("x" ++ hex2 c)
       else String c EmptyString) ++ repr_body q s'
  end.

(** [repr(s)] of a [str]: double quotes only when the text holds a single
    quote and no double quote.  Bytes above 127 are kept as they are: the
    escapes CPython writes for non-printable code points above 127 are not
    modelled. *)
Definition repr_str (s : string) : string :=
  let q := if contains_char squote s && negb (contains_char dquote s)
           then dquote else squote in
  String q (repr_body q s ++ String q EmptyString).

(** [repr(v)].  The limits of the interpreter are not modelled: CPython
    raises [RecursionError] on nesting beyond its recursion limit and
    [ValueError] on an [int] of more than 4300 digits. *)
Fixpoint repr (v : value) : string :=
  match v with
  | VNone => "None"
  | VBool b => if b then "True" else "False"
  | VInt z => int_str z
  | VFloat r => r
  | VStr s => repr_str s
  | VList l => "[" ++ join ", " (map repr l) ++ "]"
  | VDict d =>
      "{" ++ join ", "
        ((fix items (d : dict) : list string :=
            match d with
            | [] => []
            | (k, x) :: d' => (repr_str k ++ ": " ++ repr x) :: items d'
            end) d) ++ "}"
  end.

(** [str(v)], which is also ["{}".format(v)]. *)
Definition str (v : value) : string :=
  match v with
  | VStr s => s
  | _ => repr v
  end.

(** *** len() *)

(** A byte that continues a UTF-8 sequence. *)
Definition is_continuation (c : ascii) : bool :=
  let n := nat_of_ascii c in (128 <=? n)%nat && (n <? 192)%nat.

(** The number of code points of a [str] held as UTF-8 bytes. *)
Fixpoint char_count (s : string) : nat :=
  match s with
  | EmptyString => O
  | String c s' => (if is_continuation c then 0 else 1) + char_count s'
  end.

(** [len(v)]: only [str], [list] and [dict] have a length. *)
Definition len_of (v : value) : result nat :=
  match v with
  | VStr s => Return (char_count s)
  | VList l => Return (length l)
  | VDict d => Return (length d)
  | _ => Raise (Exn TypeError
                  ("object of type '" ++ type_name v ++ "' has no len()"))
  end.

(** [str(n)] of a length. *)
Definition nat_str (n : nat) : string := int_str (Z.of_nat n).

Definition result_map {A B} (f : A -> B) (r : result A) : result B :=
  match r with
  | Return a => Return (f a)
  | Raise e => Raise e
  end.

End Py.

(** ** json.dumps(obj, indent=2, ensure_ascii=False, default=str) *)

Module Json.
Import Py.

(** The replacement of one character inside a JSON string when
    [ensure_ascii] is false: the quote, the backslash and the control
    characters below 32 are escaped, everything else is kept. *)
Definition escape_char (c : ascii) : string :=
  let n := nat_of_ascii c in
  if Ascii.eqb c dquote then String bslash (String dquote EmptyString)
  else if Ascii.eqb c bslash then String bslash (String bslash EmptyString)
  else if (n =? 10)%nat then String bslash "n"
  else if (n =? 13)%nat then String bslash "r"
  else if (n =? 9)%nat then String bslash "t"
  else if (n =? 8)%nat then String bslash "b"
  else if (n =? 12)%nat then String bslash "f"
  else if (n <? 32)%nat then String bslash ("u00" ++ hex2 c)
  else String c EmptyString.

Fixpoint escape (s : string) : string :=
  match s with
  | EmptyString => EmptyString
  | String c s' => escape_char c ++ escape s'
  end.

Definition encode_str (s : string) : string :=
  String dquote (escape s ++ String dquote EmptyString).

(** [float.__repr__] with the three names the encoder gives to the
    non-finite floats. *)
Definition encode_float (r : string) : string :=
  if String.eqb r "nan" then "NaN"
  else if String.eqb r "inf" then "Infinity"
  else if String.eqb r "-inf" then "-Infinity"
  else r.

Fixpoint spaces (n : nat) : string :=
  match n with
  | O => EmptyString
  | S n' => String " "%char (spaces n')
  end.

(** A newline followed by the indentation of nesting level [lvl]. *)
Definition newline_indent (lvl : nat) : string := nl ++ spaces (2 * lvl).

(** The encoding of [v] met at nesting level [lvl].  The keys of a dict
    decoded from JSON are [str], and none of the values needs [default].
    The recursion limit of the interpreter is not modelled. *)
Fixpoint encode (lvl : nat) (v : value) : string :=
  match v with
  | VNone => "null"
  | VBool b => if b then "true" else "false"
  | VInt z => int_str z
  | VFloat r => encode_float r
  | VStr s => encode_str s
  | VList l =>
      match l with
      | [] => "[]"
      | _ =>
          "[" ++ newline_indent (S lvl)
              ++ join ("," ++ newline_indent (S lvl)) (map (encode (S lvl)) l)
              ++ newline_indent lvl ++ "]"
      end
  | VDict d =>
      match d with
      | [] => "{}"
      | _ =>
          "{" ++ newline_indent (S lvl)
              ++ join ("," ++ newline_indent (S lvl))
                   ((fix items (d : dict) : list string :=
                       match d with
                       | [] => []
                       | (k, x) :: d' =>
                           (encode_str k ++ ": " ++ encode (S lvl) x) :: items d'
                       end) d)
              ++ newline_indent lvl ++ "}"
      end
  end.

Definition dumps (v : value) : string := encode 0 v.

End Json.

(** ** tools/utils.py *)

Module Utils.
Import Py.

(** [v.lower()]: only [str] has the attribute. *)
Definition call_lower (v : value) : result string :=
  match v with
  | VStr s => Return (lower s)
  | _ => Raise (Exn AttributeError
                  ("'" ++ type_name v ++ "' object has no attribute 'lower'"))
  end.

(** The test of line 22: a [data] key holding a dict, and at most two keys. *)
Definition is_envelope (response : dict) : bool :=
  mem "data" response
  && match lookup "data" response with Some v => is_dict v | None => false end
  && (len response <=? 2)%nat.

(** Lines 22-23: the working value after the envelope test. *)
Definition unwrap (response : dict) : dict :=
  if is_envelope response then
    match lookup "data" response with
    | Some (VDict inner) => inner
    | _ => response
    end
  else response.

(** Lines 26-37: the error report.  [error_parts] holds three [str] when
    the traceback is appended; [join] raises on a fourth item that is not. *)
Definition error_report (response : dict) : result value :=
  let error_msg := get "error" (VStr "Unknown error occurred") response in
  let traceback_info := get "traceback" (VStr "") response in
  let error_parts := ["=== ERROR ==="; "Error: " ++ str error_msg] in
  if truthy traceback_info then
    match traceback_info with
    | VStr tb =>
        Return (VStr (join nl (app error_parts [nl ++ "=== TRACEBACK ==="; tb])))
    | other =>
        Raise (Exn TypeError
                 ("sequence item 3: expected str instance, "
                    ++ type_name other ++ " found"))
    end
  else Return (VStr (join nl error_parts)).

(** Lines 49-56: the status report. *)
Definition status_report (response : dict) : string :=
  let status_parts :=
    ["=== REVIT STATUS ===";
     "Status: " ++ str (get "status" (VStr "Unknown") response);
     "Health: " ++ str (get "health" (VStr "Unknown") response)] in
  let status_parts :=
    match lookup "api_name" response with
    | Some v => app status_parts ["API: " ++ str v]
    | None => status_parts
    end in
  let status_parts :=
    match lookup "document_title" response with
    | Some v => app status_parts ["Document: " ++ str v]
    | None => status_parts
    end in
  join nl status_parts.

(** Lines 26-60: what [format_response] does with the working dict. *)
Definition format_mapping (response : dict) : result value :=
  if mem "error" response then error_report response
  else
    match call_lower (get "status" (VStr "") response) with
    | Raise e => Raise e
    | Return status =>
        match call_lower (get "health" (VStr "") response) with
        | Raise e => Raise e
        | Return health =>
            match lookup "output" response with
            | Some out => Return out
            | None =>
                if String.eqb status "active" && String.eqb health "healthy"
                then Return (VStr (status_report response))
                else Return (VStr (Json.dumps (VDict response)))
            end
        end
    end.

Definition format_response (response : value) : result value :=
  match response with
  | VDict d => format_mapping (unwrap d)
  | other => Return (VStr (str other))
  end.

End Utils.

(** ** The tool handlers *)

Module Tools.
Import Py.

(** The logging handle a caller may pass; the handlers only test it and
    call [info] and [error] on it. *)
Inductive Context : Type := Ctx.

(** What a handler does that is visible outside it, in program order. *)
Inductive event : Type :=
| LogInfo (msg : string)
| LogError (msg : string)
| HttpGet (path : string) (params : option value) (timeout : option string)
| HttpPost (path : string) (payload : value) (timeout : option string).

(** A handler body: it extends the trace and returns or raises. *)
Definition Tool (A : Type) : Type := list event -> list event * result A.

Definition ret {A} (a : A) : Tool A := fun tr => (tr, Return a).

Definition bind {A B} (m : Tool A) (k : A -> Tool B) : Tool B :=
  fun tr =>
    match m tr with
    | (tr', Return a) => k a tr'
    | (tr', Raise e) => (tr', Raise e)
    end.

Notation "x <- m ;; k" := (bind m (fun x => k))
  (at level 61, m at next level, right associativity).
Notation "m ;;; k" := (bind m (fun _ => k))
  (at level 61, right associativity).

Definition emit (e : event) : Tool unit := fun tr => (app tr [e], Return tt).

(** The value or exception of a pure call, inside a handler. *)
Definition lift {A} (r : result A) : Tool A := fun tr => (tr, r).

(** [except (ConnectionError, ValueError, RuntimeError)] *)
Definition recoverable (e : exn) : bool :=
  match exn_cls e with
  | ConnectionError | ValueError | RuntimeError => true
  | _ => false
  end.

(** [try: body  except classes as e: handler(e)] *)
Definition try_except {A} (body : Tool A) (classes : exn -> bool)
    (handler : exn -> Tool A) : Tool A :=
  fun tr =>
    match body tr with
    | (tr', Return a) => (tr', Return a)
    | (tr', Raise e) => if classes e then handler e tr' else (tr', Raise e)
    end.

(** [if ctx: ctx.info(msg)] and [if ctx: ctx.error(msg)] *)
Definition ctx_info (ctx : option Context) (msg : string) : Tool unit :=
  match ctx with Some _ => emit (LogInfo msg) | None => ret tt end.

Definition ctx_error (ctx : option Context) (msg : string) : Tool unit :=
  match ctx with Some _ => emit (LogError msg) | None => ret tt end.

(** [if ctx: ctx.info(msg)] where building [msg] may raise; nothing is
    evaluated without a context. *)
Definition ctx_info_of (ctx : option Context) (msg : result string)
  : Tool unit :=
  match ctx with
  | Some _ => bind (lift msg) (fun m => emit (LogInfo m))
  | None => ret tt
  end.

(** The value a parameter is bound to: the argument, or the default of the
    [def] line when the caller leaves it out. *)
Definition arg (supplied : option value) (default : value) : value :=
  match supplied with Some v => v | None => default end.

(** The types of the two transport functions: [revit_get(path, ctx,
    params, timeout)] and [revit_post(path, payload, ctx, timeout)]. *)
Definition get_fn : Type :=
  string -> option Context -> option value -> option string -> result value.
Definition post_fn : Type :=
  string -> value -> option Context -> option string -> result value.

Section Handlers.

(** The transport functions handed to the [register_*_tools] functions. *)
Variable revit_get :
  string -> option Context -> option value -> option string -> result value.
Variable revit_post :
  string -> value -> option Context -> option string -> result value.

Definition await_get (path : string) (ctx : option Context)
    (params : option value) (timeout : option string) : Tool value :=
  emit (HttpGet path params timeout) ;;;
  lift (revit_get path ctx params timeout).

Definition await_post (path : string) (payload : value)
    (ctx : option Context) (timeout : option string) : Tool value :=
  emit (HttpPost path payload timeout) ;;;
  lift (revit_post path payload ctx timeout).

(** code_execution_tools.py, lines 14-88 *)
Definition execute_revit_code (code : value)
    (description use_transaction : option value) (ctx : option Context)
  : Tool value :=
  let description := arg description (VStr "Code execution") in
  let use_transaction := arg use_transaction (VBool true) in
  try_except
    (let payload := VDict [("code", code);
                           ("description", description);
                           ("use_transaction", use_transaction)] in
     ctx_info ctx
       (let trans_info := if truthy use_transaction then "with transaction"
                          else "without transaction" in
        "Executing code (" ++ trans_info ++ "): " ++ str description) ;;;
     response <- await_post "/execute_code/" payload ctx (Some "60.0") ;;
     lift (Utils.format_response response))
    recoverable
    (fun e =>
       let error_msg := "Error during code execution: " ++ exn_msg e in
       ctx_error ctx error_msg ;;;
       ret (VStr error_msg)).

(** family_tools.py, lines 13-34 *)
Definition place_family_data (family_name : value)
    (type_name x y z rotation level_name properties : option value) : dict :=
  let type_name := arg type_name VNone in
  let x := arg x (VFloat "0.0") in
  let y := arg y (VFloat "0.0") in
  let z := arg z (VFloat "0.0") in
  let rotation := arg rotation (VFloat "0.0") in
  let level_name := arg level_name VNone in
  let properties := arg properties VNone in
  [("family_name", family_name);
   ("type_name", type_name);
   ("location", VDict [("x", x); ("y", y); ("z", z)]);
   ("rotation", rotation);
   ("level_name", level_name);
   ("properties", or_else properties (VDict []))].

Definition place_family (family_name : value)
    (type_name x y z rotation level_name properties : option value)
    (ctx : option Context) : Tool value :=
  let data := place_family_data family_name type_name x y z rotation
                level_name properties in
  response <- await_post "/place_family/" (VDict data) ctx None ;;
  lift (Utils.format_response response).

(** family_tools.py, lines 91-102 *)
Definition list_families_params (contains limit : option value) : dict :=
  let contains := arg contains VNone in
  let limit := arg limit (VInt 50) in
  let params := [] in
  let params := if truthy contains
                then set "contains" contains params else params in
  let params := if ne_int limit 50
                then set "limit" (VStr (str limit)) params else params in
  params.

Definition list_families (contains limit : option value)
    (ctx : option Context) : Tool value :=
  let params := list_families_params contains limit in
  result <- await_get "/list_families/" ctx (Some (VDict params)) None ;;
  lift (Utils.format_response result).

(** status_tools.py, lines 12-15 *)
Definition get_revit_status (ctx : option Context) : Tool value :=
  response <- await_get "/status/" ctx None (Some "10.0") ;;
  lift (Utils.format_response response).

(** selection_tools.py, lines 97-143 *)
Definition quick_count_data (category : value)
    (type_contains type_excludes level in_view : option value) : dict :=
  let type_contains := arg type_contains VNone in
  let type_excludes := arg type_excludes VNone in
  let level := arg level VNone in
  let in_view := arg in_view (VBool false) in
  let data := [("category", category); ("in_view", in_view)] in
  let data := if truthy type_contains
              then set "type_contains" type_contains data else data in
  let data := if truthy type_excludes
              then set "type_excludes" type_excludes data else data in
  let data := if truthy level then set "level" level data else data in
  data.

Definition quick_count (category : value)
    (type_contains type_excludes level in_view : option value)
    (ctx : option Context) : Tool value :=
  ctx_info ctx ("Quick count for category: " ++ str category) ;;;
  let data := quick_count_data category type_contains type_excludes level
                in_view in
  response <- await_post "/quick_count/" (VDict data) ctx None ;;
  lift (Utils.format_response response).

(** modification_tools.py, lines 80-127 *)
Definition place_view_on_sheet_data
    (sheet_id view_id sheet_number view_name x y : option value) : dict :=
  let sheet_id := arg sheet_id (VInt 0) in
  let view_id := arg view_id (VInt 0) in
  let sheet_number := arg sheet_number (VStr "") in
  let view_name := arg view_name (VStr "") in
  let x := arg x (VFloat "1.0") in
  let y := arg y (VFloat "0.75") in
  let data := [("x", x); ("y", y)] in
  let data := if truthy sheet_id then set "sheet_id" sheet_id data else data in
  let data := if truthy view_id then set "view_id" view_id data else data in
  let data := if truthy sheet_number
              then set "sheet_number" sheet_number data else data in
  let data := if truthy view_name
              then set "view_name" view_name data else data in
  data.

Definition place_view_on_sheet
    (sheet_id view_id sheet_number view_name x y : option value)
    (ctx : option Context) : Tool value :=
  ctx_info ctx
    (let identifier :=
       or_else (arg sheet_number (VStr ""))
               (VStr (str (arg sheet_id (VInt 0)))) in
     "Placing view on sheet " ++ str identifier) ;;;
  let data := place_view_on_sheet_data sheet_id view_id sheet_number
                view_name x y in
  response <- await_post "/place_view_on_sheet/" (VDict data) ctx None ;;
  lift (Utils.format_response response).

(** modification_tools.py, lines 178-187: the payload of
    [create_walls_at_lines] *)
Definition create_walls_at_lines_data
    (line_ids lines wall_type_name level_name height structural
       : option value) : dict :=
  let line_ids := arg line_ids VNone in
  let lines := arg lines VNone in
  let wall_type_name := arg wall_type_name (VStr "") in
  let level_name := arg level_name (VStr "") in
  let height := arg height (VInt 3000) in
  let structural := arg structural (VBool false) in
  let data := [("line_ids", or_else line_ids (VList []));
               ("lines", or_else lines (VList []));
               ("height", height);
               ("structural", structural)] in
  let data := if truthy wall_type_name
              then set "wall_type_name" wall_type_name data else data in
  let data := if truthy level_name
              then set "level_name" level_name data else data in
  data.

(** modification_tools.py, lines 130-190 *)
Definition create_walls_at_lines
    (line_ids lines wall_type_name level_name height structural
       : option value) (ctx : option Context) : Tool value :=
  ctx_info_of ctx
    (match len_of (or_else (arg line_ids VNone) (VList [])) with
     | Raise e => Raise e
     | Return n1 =>
         match len_of (or_else (arg lines VNone) (VList [])) with
         | Raise e => Raise e
         | Return n2 =>
             Return ("Creating walls from " ++ nat_str (n1 + n2) ++ " lines")
         end
     end) ;;;
  let data := create_walls_at_lines_data line_ids lines wall_type_name
                level_name height structural in
  response <- await_post "/create_walls_at_lines/" (VDict data) ctx None ;;
  lift (Utils.format_response response).

(** status_tools.py, lines 18-21 *)
Definition get_revit_model_info (ctx : option Context) : Tool value :=
  response <- await_get "/model_info/" ctx None None ;;
  lift (Utils.format_response response).

(** family_tools.py, lines 37-88 *)
Definition place_workplane_families (symbol_id placements : value)
    (ctx : option Context) : Tool value :=
  ctx_info_of ctx
    (result_map
       (fun n => "Placing " ++ nat_str n
                   ++ " WorkPlaneBased families with symbol " ++ str symbol_id)
       (len_of placements)) ;;;
  let data := [("symbol_id", symbol_id); ("placements", placements)] in
  response <- await_post "/place_workplane_families/" (VDict data) ctx
                (Some "120.0") ;;
  lift (Utils.format_response response).

(** family_tools.py, lines 105-108 *)
Definition list_family_categories (ctx : option Context) : Tool value :=
  response <- await_get "/list_family_categories/" ctx None None ;;
  lift (Utils.format_response response).

(** selection_tools.py, lines 13-29 *)
Definition get_active_selection (ctx : option Context) : Tool value :=
  ctx_info ctx "Getting active selection info..." ;;;
  response <- await_get "/active_selection/" ctx None None ;;
  lift (Utils.format_response response).

(** selection_tools.py, lines 32-45 *)
Definition inspect_selected_element (index : option value)
    (ctx : option Context) : Tool value :=
  let index := arg index (VInt 0) in
  ctx_info ctx
    ("Inspecting selected element at index " ++ str index ++ "...") ;;;
  response <- await_get ("/inspect_selected/" ++ str index) ctx None None ;;
  lift (Utils.format_response response).

(** selection_tools.py, lines 48-71 *)
Definition inspect_element (element_id : value) (ctx : option Context)
  : Tool value :=
  ctx_info ctx ("Inspecting element ID " ++ str element_id ++ "...") ;;;
  response <- await_get ("/inspect_element/" ++ str element_id) ctx None
                None ;;
  lift (Utils.format_response response).

(** selection_tools.py, lines 74-94 *)
Definition get_link_status (ctx : option Context) : Tool value :=
  ctx_info ctx "Getting link status..." ;;;
  response <- await_get "/link_status/" ctx None None ;;
  lift (Utils.format_response response).

(** parameter_tools.py, lines 13-44 *)
Definition get_element_parameter (element_id parameter_name : value)
    (ctx : option Context) : Tool value :=
  ctx_info ctx ("Getting parameter '" ++ str parameter_name
                  ++ "' from element " ++ str element_id) ;;;
  let data := [("element_id", element_id);
               ("parameter_name", parameter_name)] in
  response <- await_post "/get_parameter/" (VDict data) ctx None ;;
  lift (Utils.format_response response).

(** parameter_tools.py, lines 47-84 *)
Definition set_element_parameter (element_id parameter_name value_ : value)
    (ctx : option Context) : Tool value :=
  ctx_info ctx ("Setting parameter '" ++ str parameter_name ++ "' = '"
                  ++ str value_ ++ "' on element " ++ str element_id) ;;;
  let data := [("element_id", element_id);
               ("parameter_name", parameter_name);
               ("value", value_)] in
  response <- await_post "/set_parameter/" (VDict data) ctx None ;;
  lift (Utils.format_response response).

(** parameter_tools.py, lines 87-119 *)
Definition get_all_parameters (element_id : value)
    (include_empty include_readonly : option value) (ctx : option Context)
  : Tool value :=
  let include_empty := arg include_empty (VBool false) in
  let include_readonly := arg include_readonly (VBool true) in
  ctx_info ctx ("Getting all parameters from element " ++ str element_id) ;;;
  let data := [("element_id", element_id);
               ("include_empty", include_empty);
               ("include_readonly", include_readonly)] in
  response <- await_post "/get_all_parameters/" (VDict data) ctx None ;;
  lift (Utils.format_response response).

(** parameter_tools.py, lines 122-155 *)
Definition set_parameters_bulk (element_id parameters : value)
    (ctx : option Context) : Tool value :=
  ctx_info_of ctx
    (result_map
       (fun n => "Setting " ++ nat_str n ++ " parameters on element "
                   ++ str element_id)
       (len_of parameters)) ;;;
  let data := [("element_id", element_id); ("parameters", parameters)] in
  response <- await_post "/set_parameters_bulk/" (VDict data) ctx None ;;
  lift (Utils.format_response response).

(** parameter_tools.py, lines 158-192 *)
Definition set_parameters_multi_elements (element_ids parameters : value)
    (ctx : option Context) : Tool value :=
  ctx_info_of ctx
    (result_map
       (fun n => "Setting parameters on " ++ nat_str n ++ " elements")
       (len_of element_ids)) ;;;
  let data := [("element_ids", element_ids); ("parameters", parameters)] in
  response <- await_post "/set_parameters_multi/" (VDict data) ctx None ;;
  lift (Utils.format_response response).

(** ifc_tools.py, lines 63-71: the filters named in the log entry *)
Definition query_ifc_filters
    (link_name category ifc_class parameter_name parameter_value : value)
  : list string :=
  let filters := [] in
  let filters := if truthy link_name
                 then app filters ["link=" ++ str link_name] else filters in
  let filters := if truthy category
                 then app filters ["category=" ++ str category]
                 else filters in
  let filters := if truthy ifc_class
                 then app filters ["ifc_class=" ++ str ifc_class]
                 else filters in
  let filters := if truthy parameter_name
                 then app filters
                        [str parameter_name ++ "="
                           ++ str (or_else parameter_value (VStr "*"))]
                 else filters in
  filters.

(** ifc_tools.py, lines 13-83 *)
Definition query_ifc_elements
    (link_name category ifc_class parameter_name parameter_value max_results
       : option value) (ctx : option Context) : Tool value :=
  let link_name := arg link_name (VStr "") in
  let category := arg category (VStr "") in
  let ifc_class := arg ifc_class (VStr "") in
  let parameter_name := arg parameter_name (VStr "") in
  let parameter_value := arg parameter_value (VStr "") in
  let max_results := arg max_results (VInt 100) in
  ctx_info ctx
    (let filters := query_ifc_filters link_name category ifc_class
                      parameter_name parameter_value in
     "Querying IFC elements: "
       ++ match filters with [] => "all" | _ => join ", " filters end) ;;;
  let data := [("link_name", link_name);
               ("category", category);
               ("ifc_class", ifc_class);
               ("parameter_name", parameter_name);
               ("parameter_value", parameter_value);
               ("max_results", max_results)] in
  response <- await_post "/query_ifc_elements/" (VDict data) ctx None ;;
  lift (Utils.format_response response).

(** ifc_tools.py, lines 86-121 *)
Definition get_ifc_element_properties (link_instance_id element_id : value)
    (ctx : option Context) : Tool value :=
  ctx_info ctx ("Getting properties for element " ++ str element_id
                  ++ " in link " ++ str link_instance_id) ;;;
  let data := [("link_instance_id", link_instance_id);
               ("element_id", element_id)] in
  response <- await_post "/get_ifc_element_properties/" (VDict data) ctx
                None ;;
  lift (Utils.format_response response).

(** modification_tools.py, lines 13-42 *)
Definition batch_update (updates : value) (ctx : option Context)
  : Tool value :=
  ctx_info_of ctx
    (result_map
       (fun n => "Batch updating " ++ nat_str n ++ " elements")
       (len_of updates)) ;;;
  let data := [("updates", updates)] in
  response <- await_post "/batch_update/" (VDict data) ctx None ;;
  lift (Utils.format_response response).

(** modification_tools.py, lines 45-77 *)
Definition create_sheet_data (sheet_number : value)
    (sheet_name title_block_name : option value) : dict :=
  let sheet_name := arg sheet_name (VStr "New Sheet") in
  let title_block_name := arg title_block_name (VStr "") in
  let data := [("sheet_number", sheet_number); ("sheet_name", sheet_name)] in
  let data := if truthy title_block_name
              then set "title_block_name" title_block_name data else data in
  data.

Definition create_sheet (sheet_number : value)
    (sheet_name title_block_name : option value) (ctx : option Context)
  : Tool value :=
  ctx_info ctx ("Creating sheet " ++ str sheet_number ++ " - "
                  ++ str (arg sheet_name (VStr "New Sheet"))) ;;;
  let data := create_sheet_data sheet_number sheet_name title_block_name in
  response <- await_post "/create_sheet/" (VDict data) ctx None ;;
  lift (Utils.format_response response).

(** modification_tools.py, lines 193-243 *)
Definition batch_family_placement_data (family_name placements : value)
    (type_name level_name : option value) : dict :=
  let type_name := arg type_name (VStr "") in
  let level_name := arg level_name (VStr "") in
  let data := [("family_name", family_name); ("placements", placements)] in
  let data := if truthy type_name
              then set "type_name" type_name data else data in
  let data := if truthy level_name
              then set "level_name" level_name data else data in
  data.

Definition batch_family_placement (family_name placements : value)
    (type_name level_name : option value) (ctx : option Context)
  : Tool value :=
  ctx_info_of ctx
    (result_map
       (fun n => "Placing " ++ nat_str n ++ " instances of family '"
                   ++ str family_name ++ "'")
       (len_of placements)) ;;;
  let data := batch_family_placement_data family_name placements type_name
                level_name in
  response <- await_post "/batch_family_placement/" (VDict data) ctx None ;;
  lift (Utils.format_response response).

(** modification_tools.py, lines 246-309 *)
Definition place_workplane_windows (symbol_id placements : value)
    (ctx : option Context) : Tool value :=
  ctx_info_of ctx
    (result_map
       (fun n => "Placing " ++ nat_str n ++ " windows with symbol "
                   ++ str symbol_id)
       (len_of placements)) ;;;
  let data := [("symbol_id", symbol_id); ("placements", placements)] in
  response <- await_post "/place_workplane_windows/" (VDict data) ctx
                (Some "120.0") ;;
  lift (Utils.format_response response).

(** modification_tools.py, lines 312-363 *)
Definition coordinate_converter (x y : value)
    (z from_unit to_unit from_system to_system : option value)
    (ctx : option Context) : Tool value :=
  let z := arg z (VInt 0) in
  let from_unit := arg from_unit (VStr "mm") in
  let to_unit := arg to_unit (VStr "mm") in
  let from_system := arg from_system (VStr "internal") in
  let to_system := arg to_system (VStr "internal") in
  ctx_info ctx ("Converting coordinates from " ++ str from_unit ++ " "
                  ++ str from_system ++ " to " ++ str to_unit ++ " "
                  ++ str to_system) ;;;
  let data := [("coordinates", VDict [("x", x); ("y", y); ("z", z)]);
               ("from_unit", from_unit);
               ("to_unit", to_unit);
               ("from_system", from_system);
               ("to_system", to_system)] in
  response <- await_post "/coordinate_converter/" (VDict data) ctx None ;;
  lift (Utils.format_response response).

(** A call of one of the tools, with the arguments the caller supplies. *)
Inductive call : Type :=
| Get_revit_status
| Get_revit_model_info
| Place_family (family_name : value)
    (type_name x y z rotation level_name properties : option value)
| Place_workplane_families (symbol_id placements : value)
| List_families (contains limit : option value)
| List_family_categories
| Execute_revit_code (code : value)
    (description use_transaction : option value)
| Get_active_selection
| Inspect_selected_element (index : option value)
| Inspect_element (element_id : value)
| Get_link_status
| Quick_count (category : value)
    (type_contains type_excludes level in_view : option value)
| Get_element_parameter (element_id parameter_name : value)
| Set_element_parameter (element_id parameter_name value_ : value)
| Get_all_parameters (element_id : value)
    (include_empty include_readonly : option value)
| Set_parameters_bulk (element_id parameters : value)
| Set_parameters_multi_elements (element_ids parameters : value)
| Query_ifc_elements
    (link_name category ifc_class parameter_name parameter_value max_results
       : option value)
| Get_ifc_element_properties (link_instance_id element_id : value)
| Batch_update (updates : value)
| Create_sheet (sheet_number : value)
    (sheet_name title_block_name : option value)
| Place_view_on_sheet
    (sheet_id view_id sheet_number view_name x y : option value)
| Create_walls_at_lines
    (line_ids lines wall_type_name level_name height structural
       : option value)
| Batch_family_placement (family_name placements : value)
    (type_name level_name : option value)
| Place_workplane_windows (symbol_id placements : value)
| Coordinate_converter (x y : value)
    (z from_unit to_unit from_system to_system : option value).

(** The handler a call runs. *)
Definition invoke (c : call) (ctx : option Context) : Tool value :=
  match c with
  | Get_revit_status => get_revit_status ctx
  | Get_revit_model_info => get_revit_model_info ctx
  | Place_family f t x y z r l p => place_family f t x y z r l p ctx
  | Place_workplane_families s p => place_workplane_families s p ctx
  | List_families c l => list_families c l ctx
  | List_family_categories => list_family_categories ctx
  | Execute_revit_code c d u => execute_revit_code c d u ctx
  | Get_active_selection => get_active_selection ctx
  | Inspect_selected_element i => inspect_selected_element i ctx
  | Inspect_element e => inspect_element e ctx
  | Get_link_status => get_link_status ctx
  | Quick_count c tc te l iv => quick_count c tc te l iv ctx
  | Get_element_parameter e p => get_element_parameter e p ctx
  | Set_element_parameter e p v => set_element_parameter e p v ctx
  | Get_all_parameters e ie ir => get_all_parameters e ie ir ctx
  | Set_parameters_bulk e p => set_parameters_bulk e p ctx
  | Set_parameters_multi_elements e p => set_parameters_multi_elements e p ctx
  | Query_ifc_elements l c i pn pv m => query_ifc_elements l c i pn pv m ctx
  | Get_ifc_element_properties l e => get_ifc_element_properties l e ctx
  | Batch_update u => batch_update u ctx
  | Create_sheet n s t => create_sheet n s t ctx
  | Place_view_on_sheet si vi sn vn x y =>
      place_view_on_sheet si vi sn vn x y ctx
  | Create_walls_at_lines li ls w l h s =>
      create_walls_at_lines li ls w l h s ctx
  | Batch_family_placement f p t l => batch_family_placement f p t l ctx
  | Place_workplane_windows s p => place_workplane_windows s p ctx
  | Coordinate_converter x y z fu tu fs ts =>
      coordinate_converter x y z fu tu fs ts ctx
  end.

(** What the transport answered to a call recorded in the trace. *)
Definition answer (ctx : option Context) (ev : event)
  : option (result value) :=
  match ev with
  | HttpGet path params timeout => Some (revit_get path ctx params timeout)
  | HttpPost path payload timeout =>
      Some (revit_post path payload ctx timeout)
  | _ => None
  end.

End Handlers.

(** The payload of the first POST of a trace. *)
Fixpoint posted (tr : list event) : option value :=
  match tr with
  | [] => None
  | HttpPost _ payload _ :: _ => Some payload
  | _ :: tr' => posted tr'
  end.

(** The payload a handler posts when run from an empty trace. *)
Definition payload_of {A} (m : Tool A) : option value := posted (fst (m [])).

(** The log entries of a trace. *)
Definition is_log_error (e : event) : bool :=
  match e with LogError _ => true | _ => false end.

Definition is_log (e : event) : bool :=
  match e with LogInfo _ | LogError _ => true | _ => false end.

Definition is_http (e : event) : bool :=
  match e with HttpGet _ _ _ | HttpPost _ _ _ => true | _ => false end.

(** The number of transport calls of a trace. *)
Definition http_count (tr : list event) : nat :=
  length (filter is_http tr).

(** The name a tool is registered under: the name of its [def]. *)
Definition tool_name (c : call) : string :=
  match c with
  | Get_revit_status => "get_revit_status"
  | Get_revit_model_info => "get_revit_model_info"
  | Place_family _ _ _ _ _ _ _ _ => "place_family"
  | Place_workplane_families _ _ => "place_workplane_families"
  | List_families _ _ => "list_families"
  | List_family_categories => "list_family_categories"
  | Execute_revit_code _ _ _ => "execute_revit_code"
  | Get_active_selection => "get_active_selection"
  | Inspect_selected_element _ => "inspect_selected_element"
  | Inspect_element _ => "inspect_element"
  | Get_link_status => "get_link_status"
  | Quick_count _ _ _ _ _ => "quick_count"
  | Get_element_parameter _ _ => "get_element_parameter"
  | Set_element_parameter _ _ _ => "set_element_parameter"
  | Get_all_parameters _ _ _ => "get_all_parameters"
  | Set_parameters_bulk _ _ => "set_parameters_bulk"
  | Set_parameters_multi_elements _ _ => "set_parameters_multi_elements"
  | Query_ifc_elements _ _ _ _ _ _ => "query_ifc_elements"
  | Get_ifc_element_properties _ _ => "get_ifc_element_properties"
  | Batch_update _ => "batch_update"
  | Create_sheet _ _ _ => "create_sheet"
  | Place_view_on_sheet _ _ _ _ _ _ => "place_view_on_sheet"
  | Create_walls_at_lines _ _ _ _ _ _ => "create_walls_at_lines"
  | Batch_family_placement _ _ _ _ => "batch_family_placement"
  | Place_workplane_windows _ _ => "place_workplane_windows"
  | Coordinate_converter _ _ _ _ _ _ _ => "coordinate_converter"
  end.

End Tools.

(** ** tools/__init__.py *)

Module Registry.
Import Py.

(** The tools each [register_*_tools] function declares, in order. *)
Definition register_status_tools : list string :=
  ["get_revit_status"; "get_revit_model_info"].

Definition register_family_tools : list string :=
  ["place_family"; "place_workplane_families"; "list_families";
   "list_family_categories"].

Definition register_code_execution_tools : list string :=
  ["execute_revit_code"].

Definition register_selection_tools : list string :=
  ["get_active_selection"; "inspect_selected_element"; "inspect_element";
   "get_link_status"; "quick_count"].

Definition register_parameter_tools : list string :=
  ["get_element_parameter"; "set_element_parameter"; "get_all_parameters";
   "set_parameters_bulk"; "set_parameters_multi_elements"].

Definition register_ifc_tools : list string :=
  ["query_ifc_elements"; "get_ifc_element_properties"].

Definition register_modification_tools : list string :=
  ["batch_update"; "create_sheet"; "place_view_on_sheet";
   "create_walls_at_lines"; "batch_family_placement";
   "place_workplane_windows"; "coordinate_converter"].

(** [register_tools], lines 5-29.  The modules [view_tools], [model_tools]
    and [colors_tools] are not among the sources: what they register is a
    parameter. *)
Definition register_tools (view_tools model_tools colors_tools : list string)
  : list string :=
  app register_status_tools
   (app view_tools
     (app register_family_tools
       (app model_tools
         (app colors_tools
           (app register_code_execution_tools
             (app register_selection_tools
               (app register_parameter_tools
                 (app register_ifc_tools register_modification_tools)))))))).

End Registry.

(** ** Vocabulary of the specification *)

Module Spec.
Import Py.

(** [s] starts with [p]. *)
Definition starts_with (p s : string) : Prop := exists rest, s = p ++ rest.

(** [m] occurs inside [s]. *)
Definition includes (m s : string) : Prop :=
  exists pre post, s = pre ++ m ++ post.

(** The key is absent or holds a [str]: the typing the data model gives to
    [status], [health] and [traceback]. *)
Definition text_if_present (k : string) (d : dict) : bool :=
  match lookup k d with
  | Some v => is_str v
  | None => true
  end.

(** The traceback section of the error report: empty unless the key holds
    a value that counts as true. *)
Definition traceback_section (tb : option value) : string :=
  match tb with
  | Some v =>
      if truthy v then nl ++ nl ++ "=== TRACEBACK ===" ++ nl ++ str v else ""
  | None => ""
  end.

(** The working mappings on which lines 26-60 raise: an error report whose
    traceback counts as true and is not text, or, without an [error] key, a
    [status] or [health] that is not text. *)
Definition crash_shape (w : dict) : bool :=
  if mem "error" w then
    match lookup "traceback" w with
    | Some tb => truthy tb && negb (is_str tb)
    | None => false
    end
  else negb (text_if_present "status" w && text_if_present "health" w).

(** The test of line 48 on the working mapping. *)
Definition status_shape (w : dict) : bool :=
  String.eqb (lower (str (get "status" (VStr "") w))) "active"
  && String.eqb (lower (str (get "health" (VStr "") w))) "healthy".

(** The line of an optional field of the status report, when present. *)
Definition optional_line (label : string) (field : option value)
  : list string :=
  match field with
  | Some v => [label ++ str v]
  | None => []
  end.

End Spec.

(** ** Sample responses *)

Module Samples.
Import Py Tools.

(** A transport whose every POST fails to connect. *)
Definition refused : exn := Exn ConnectionError "All connection attempts failed".

Definition refusing_post (path : string) (payload : value)
    (ctx : option Context) (timeout : option string) : result value :=
  Raise refused.

Definition refusing_get (path : string) (ctx : option Context)
    (params : option value) (timeout : option string) : result value :=
  Raise refused.

(** A transport that answers every call with the same response. *)
Definition answering_get (r : value) : get_fn := fun _ _ _ _ => Return r.
Definition answering_post (r : value) : post_fn := fun _ _ _ _ => Return r.

(** A transport whose every call times out. *)
Definition timed_out : exn := Exn TimeoutError "timed out".
Definition timing_out_post : post_fn := fun _ _ _ _ => Raise timed_out.

(** [{"data": {"error": ..., "traceback": ...}, "request_id": "abc"}] *)
Definition enveloped_error : dict :=
  [("data", VDict [("error", VStr "Element not found");
                   ("traceback", VStr "File main.py, line 3")]);
   ("request_id", VStr "abc")].

(** [{"error": "Element not found"}] *)
Definition plain_error : dict := [("error", VStr "Element not found")].

(** [{"error": ""}] and [{"error": null}] *)
Definition empty_error : dict := [("error", VStr "")].
Definition null_error : dict := [("error", VNone)].

(** [{"output": "Document title: Test\nNumber of walls: 12"}] *)
Definition wall_count_output : dict :=
  [("output", VStr ("Document title: Test" ++ nl ++ "Number of walls: 12"))].

(** [{"output": "x", "data": {}}] *)
Definition output_beside_data : dict :=
  [("output", VStr "x"); ("data", VDict [])].

(** [{"error": "boom", "data": {"count": 5}}] *)
Definition error_beside_data : dict :=
  [("error", VStr "boom"); ("data", VDict [("count", VInt 5)])].

(** The serialisation of [{"count": 5}] with an indent of two. *)
Definition count_json : string :=
  "{" ++ nl ++ "  " ++ String dquote "count" ++ String dquote ": 5"
      ++ nl ++ "}".

(** [{"data": {"count": 5}, "request_id": "abc"}] *)
Definition enveloped_count : dict :=
  [("data", VDict [("count", VInt 5)]); ("request_id", VStr "abc")].

(** [{"data": {"data": {"output": "x"}}}] *)
Definition double_envelope : dict :=
  [("data", VDict [("data", VDict [("output", VStr "x")])])].

(** [{"status": "Active", "health": "Healthy", "api_name": "RevitAPI"}] *)
Definition active_status : dict :=
  [("status", VStr "Active"); ("health", VStr "Healthy");
   ("api_name", VStr "RevitAPI")].

(** [{"status": 404}], [{"health": null}], [{"output": 5}] and
    [{"error": "x", "traceback": 5}] *)
Definition numeric_status : dict := [("status", VInt 404)].
Definition null_health : dict := [("health", VNone)].
Definition numeric_output : dict := [("output", VInt 5)].
Definition numeric_traceback : dict :=
  [("error", VStr "x"); ("traceback", VInt 5)].

(** [{"error": "x", "traceback": ["l1", "l2"]}]: the traceback as a list
    of lines *)
Definition list_traceback : dict :=
  [("error", VStr "x"); ("traceback", VList [VStr "l1"; VStr "l2"])].

(** [{"error": "x", "output": "y", "traceback": 5}] *)
Definition traced_error_beside_output : dict :=
  [("error", VStr "x"); ("output", VStr "y"); ("traceback", VInt 5)].

End Samples.

(** ** Properties of [format_response] *)

Import Py Utils Tools Spec Samples.

Lemma mem_lookup (k : string) (d : dict) (v : value) :
  lookup k d = Some v -> mem k d = true.
Proof. unfold mem. intros ->. reflexivity. Qed.

Lemma mem_false_lookup (k : string) (d : dict) :
  mem k d = false -> lookup k d = None.
Proof. unfold mem. destruct (lookup k d); [discriminate | reflexivity]. Qed.

Lemma append_assoc (a b c : string) : (a ++ b) ++ c = a ++ b ++ c.
Proof. induction a as [|x a IH]; simpl; [reflexivity | now rewrite IH]. Qed.

Lemma append_empty_r (a : string) : a ++ "" = a.
Proof. induction a as [|x a IH]; simpl; [reflexivity | now rewrite IH]. Qed.

Lemma truthy_str (s : string) : truthy (VStr s) = true <-> s <> "".
Proof.
  simpl. destruct (String.eqb_spec s ""); split; intro H;
    try discriminate; try reflexivity; congruence.
Qed.

(** An envelope is replaced by the dict under its [data] key. *)
Lemma unwrap_envelope (d inner : dict) :
  lookup "data" d = Some (VDict inner) -> (len d <= 2)%nat ->
  unwrap d = inner.
Proof.
  intros Hd Hlen. unfold unwrap, is_envelope, mem. rewrite Hd. simpl.
  apply Nat.leb_le in Hlen. rewrite Hlen. reflexivity.
Qed.

(** Any other dict is the working value itself. *)
Lemma unwrap_not_envelope (d : dict) : is_envelope d = false -> unwrap d = d.
Proof. unfold unwrap. intros ->. reflexivity. Qed.

(** The report of lines 26-37, whenever the traceback is text or counts
    as false. *)
Lemma error_report_text (d : dict) (e : value) :
  lookup "error" d = Some e ->
  match lookup "traceback" d with
  | Some v => is_str v || negb (truthy v)
  | None => true
  end = true ->
  error_report d =
    Return (VStr ("=== ERROR ===" ++ nl ++ "Error: " ++ str e
                    ++ traceback_section (lookup "traceback" d))).
Proof.
  intros He Htb. unfold error_report, get. rewrite He.
  destruct (lookup "traceback" d) as [tb|].
  - unfold traceback_section. destruct (truthy tb) eqn:T.
    + rewrite orb_false_r in Htb.
      destruct tb; try discriminate Htb. reflexivity.
    + simpl. rewrite append_empty_r. reflexivity.
  - simpl. rewrite append_empty_r. reflexivity.
Qed.

(** The claim of C1 fails on a traceback that is not text: with the
    traceback given as a list of lines the error is a non-empty string, and
    the join of line 37 raises [TypeError] instead of returning the
    report. *)
Lemma error_report_traceback_not_text :
  wf_value (VDict list_traceback) = true
  /\ lookup "error" (unwrap list_traceback) = Some (VStr "x")
  /\ "x" <> ""
  /\ mem "traceback" (unwrap list_traceback) = true
  /\ format_response (VDict list_traceback)
     = Raise (Exn TypeError
                "sequence item 3: expected str instance, list found").
Proof.
  split; [reflexivity |]. split; [reflexivity |]. split; [discriminate |].
  split; reflexivity.
Qed.

(** C1 (amended).  A response that is a mapping, whose working mapping
    (after the envelope unwrap) holds a non-empty string under [error] and
    whose [traceback], where present, is text or a value that counts as
    false, is rendered as the error header line, the line
    [Error: message], and - exactly when a [traceback] is present and
    counts as true, which for text means non-empty - a blank line, the
    traceback header line and the traceback text unchanged. *)
Theorem format_response_error_report (d : dict) (msg : string) :
  lookup "error" (unwrap d) = Some (VStr msg) ->
  msg <> "" ->
  match lookup "traceback" (unwrap d) with
  | Some v => is_str v || negb (truthy v)
  | None => true
  end = true ->
  format_response (VDict d) =
    Return (VStr ("=== ERROR ===" ++ nl ++ "Error: " ++ msg
                    ++ traceback_section (lookup "traceback" (unwrap d))))
  /\ (traceback_section (lookup "traceback" (unwrap d)) <> "" <->
      exists tb, lookup "traceback" (unwrap d) = Some tb /\ truthy tb = true).
Proof.
  intros He _ Htb. split.
  - simpl. unfold format_mapping. rewrite (mem_lookup _ _ _ He).
    rewrite (error_report_text _ _ He Htb). reflexivity.
  - unfold traceback_section.
    destruct (lookup "traceback" (unwrap d)) as [tb|].
    + destruct (truthy tb) eqn:T; split.
      * intros _. exists tb. split; [reflexivity | exact T].
      * intros _. unfold nl. simpl. discriminate.
      * intros H. now contradiction H.
      * intros [tb' [E T']]. inversion E; subst. congruence.
    + split; [intros H; now contradiction H | intros [tb [E _]]; discriminate].
Qed.

Lemma format_response_error_report_witness :
  lookup "error" (unwrap enveloped_error) = Some (VStr "Element not found")
  /\ "Element not found" <> ""
  /\ match lookup "traceback" (unwrap enveloped_error) with
     | Some v => is_str v || negb (truthy v)
     | None => true
     end = true
  /\ format_response (VDict enveloped_error) =
       Return (VStr ("=== ERROR ===" ++ nl ++ "Error: Element not found"
                       ++ nl ++ nl ++ "=== TRACEBACK ===" ++ nl
                       ++ "File main.py, line 3")).
Proof.
  split; [reflexivity |]. split; [discriminate |]. split; [reflexivity |].
  exact (proj1 (format_response_error_report enveloped_error
                  "Element not found" eq_refl ltac:(discriminate) eq_refl)).
Defined.

(** The concrete scenarios of the specification. *)
Example scenario_plain_error :
  format_response (VDict plain_error)
  = Return (VStr ("=== ERROR ===" ++ nl ++ "Error: Element not found")).
Proof. reflexivity. Qed.

Example scenario_output :
  format_response (VDict wall_count_output)
  = Return (VStr ("Document title: Test" ++ nl ++ "Number of walls: 12")).
Proof. reflexivity. Qed.

Example scenario_enveloped_count :
  format_response (VDict enveloped_count) = Return (VStr count_json).
Proof. reflexivity. Qed.

Example scenario_status :
  format_response (VDict active_status)
  = Return (VStr ("=== REVIT STATUS ===" ++ nl ++ "Status: Active" ++ nl
                    ++ "Health: Healthy" ++ nl ++ "API: RevitAPI")).
Proof. reflexivity. Qed.

(** The default of [response.get("error", ...)] on line 27 is never
    taken: the call runs only when the key is present. *)
Lemma error_default_unused (d : dict) (e : value) :
  lookup "error" d = Some e ->
  get "error" (VStr "Unknown error occurred") d = e.
Proof. intros He. unfold get. now rewrite He. Qed.

(** C6 (the code departs from the claim).  An [error] key holding the empty
    string or [None] is reported with that value's own text: the message
    line reads [Error: ] or [Error: None], not
    [Error: Unknown error occurred]. *)
Theorem empty_error_not_defaulted :
  format_response (VDict empty_error) =
    Return (VStr ("=== ERROR ===" ++ nl ++ "Error: "))
  /\ format_response (VDict null_error) =
       Return (VStr ("=== ERROR ===" ++ nl ++ "Error: None")).
Proof. split; reflexivity. Qed.

(** C7. A response that is not a mapping is returned as its string form
    [str(response)]; a response that is a string is returned unchanged. *)
Theorem format_response_non_mapping :
  (forall v : value,
      is_dict v = false -> format_response v = Return (VStr (str v)))
  /\ (forall s : string, format_response (VStr s) = Return (VStr s)).
Proof.
  split.
  - intros v Hv. destruct v; try reflexivity. discriminate Hv.
  - intros s. reflexivity.
Qed.

Lemma format_response_non_mapping_witness :
  is_dict (VList [VInt 1; VStr "a"]) = false
  /\ format_response (VList [VInt 1; VStr "a"]) = Return (VStr "[1, 'a']")
  /\ format_response (VStr "Connection refused")
     = Return (VStr "Connection refused").
Proof.
  split; [reflexivity |]. split.
  - exact (proj1 format_response_non_mapping (VList [VInt 1; VStr "a"]) eq_refl).
  - exact (proj2 format_response_non_mapping "Connection refused").
Defined.

(** The working value of a dict that is not an envelope is the dict. *)
Lemma format_response_not_envelope (d : dict) :
  is_envelope d = false -> format_response (VDict d) = format_mapping d.
Proof. intros H. simpl. now rewrite (unwrap_not_envelope _ H). Qed.

(** C3. A mapping whose [data] key holds a mapping and that has at most one
    other key is formatted as lines 26-60 (error, output, status, fallback)
    format the inner mapping: the inner mapping is not unwrapped again.
    When the inner mapping is not itself an envelope this is the result of
    [format_response] on it. *)
Theorem envelope_transparency (d inner : dict) :
  lookup "data" d = Some (VDict inner) ->
  (len d <= 2)%nat ->
  format_response (VDict d) = format_mapping inner
  /\ (is_envelope inner = false ->
      format_response (VDict d) = format_response (VDict inner)).
Proof.
  intros Hd Hlen.
  assert (E : format_response (VDict d) = format_mapping inner).
  { simpl. now rewrite (unwrap_envelope _ _ Hd Hlen). }
  split; [exact E |].
  intros Hin. now rewrite E, format_response_not_envelope.
Qed.

Lemma envelope_transparency_witness :
  lookup "data" enveloped_count = Some (VDict [("count", VInt 5)])
  /\ (len enveloped_count <= 2)%nat
  /\ format_response (VDict enveloped_count)
     = format_mapping [("count", VInt 5)].
Proof.
  split; [reflexivity |]. split; [simpl; lia |].
  exact (proj1 (envelope_transparency enveloped_count [("count", VInt 5)]
                  eq_refl ltac:(simpl; lia))).
Defined.

(** Only one envelope is removed: the inner [data] of a doubly wrapped
    response is serialised, not looked into. *)
Lemma double_envelope_unwrapped_once :
  format_response (VDict double_envelope)
  = format_mapping [("data", VDict [("output", VStr "x")])]
  /\ format_response (VDict double_envelope) <> Return (VStr "x")
  /\ format_response (VDict [("data", VDict [("output", VStr "x")])])
     = Return (VStr "x").
Proof.
  split; [reflexivity |]. split; [| reflexivity].
  vm_compute. discriminate.
Qed.

(** The two [lower()] calls of lines 40-41 return when [status] and
    [health] are text or absent. *)
Lemma call_lower_text (k : string) (d : dict) :
  text_if_present k d = true ->
  call_lower (get k (VStr "") d) = Return (lower (str (get k (VStr "") d))).
Proof.
  unfold text_if_present, get. destruct (lookup k d) as [v|].
  - destruct v; try discriminate. reflexivity.
  - reflexivity.
Qed.

(** The claim of C2 fails on an envelope: the [output] beside a [data]
    mapping is dropped with the envelope, and the empty inner mapping is
    serialised. *)
Lemma output_lost_in_envelope :
  wf_value (VDict output_beside_data) = true
  /\ lookup "output" output_beside_data = Some (VStr "x")
  /\ mem "error" output_beside_data = false
  /\ format_response (VDict output_beside_data) = Return (VStr "{}")
  /\ format_response (VDict output_beside_data) <> Return (VStr "x").
Proof.
  repeat (split; [reflexivity |]). vm_compute. discriminate.
Qed.

(** C2 (amended).  When the working mapping (after the envelope unwrap)
    holds an [output] key and no [error] key, and [status] and [health] are
    text where present, the result is the value of [output] itself,
    whatever it is. *)
Theorem output_verbatim (d : dict) (out : value) :
  lookup "output" (unwrap d) = Some out ->
  mem "error" (unwrap d) = false ->
  text_if_present "status" (unwrap d) = true ->
  text_if_present "health" (unwrap d) = true ->
  format_response (VDict d) = Return out.
Proof.
  intros Hout Herr Hs Hh. simpl. unfold format_mapping.
  rewrite Herr, (call_lower_text _ _ Hs), (call_lower_text _ _ Hh), Hout.
  reflexivity.
Qed.

Lemma output_verbatim_witness :
  lookup "output" (unwrap wall_count_output)
  = Some (VStr ("Document title: Test" ++ nl ++ "Number of walls: 12"))
  /\ mem "error" (unwrap wall_count_output) = false
  /\ text_if_present "status" (unwrap wall_count_output) = true
  /\ text_if_present "health" (unwrap wall_count_output) = true
  /\ format_response (VDict wall_count_output)
     = Return (VStr ("Document title: Test" ++ nl ++ "Number of walls: 12")).
Proof.
  repeat (split; [reflexivity |]).
  exact (output_verbatim wall_count_output _ eq_refl eq_refl eq_refl eq_refl).
Defined.

(** The claim of C4 fails on an envelope: an [error] beside a [data]
    mapping is dropped with the envelope, and the inner mapping is
    serialised.  It also fails, with no envelope, on a traceback that
    counts as true and is not text: the join of line 37 raises
    [TypeError] and nothing is returned. *)
Lemma error_lost_in_envelope :
  wf_value (VDict error_beside_data) = true
  /\ mem "error" error_beside_data = true
  /\ format_response (VDict error_beside_data) = Return (VStr count_json)
  /\ ~ starts_with "=== ERROR ===" count_json
  /\ wf_value (VDict traced_error_beside_output) = true
  /\ mem "error" traced_error_beside_output = true
  /\ format_response (VDict traced_error_beside_output)
     = Raise (Exn TypeError
                "sequence item 3: expected str instance, int found").
Proof.
  repeat (split; [reflexivity |]).
  split; [| repeat split; reflexivity].
  intros [rest E]. vm_compute in E. discriminate E.
Qed.

(** C4 (amended).  When the working mapping (after the envelope unwrap)
    holds an [error] key and its [traceback], where present, is text or a
    value that counts as false, then whatever its other keys are the
    result is a string that starts with the error header line and includes
    the text of the error value; a non-empty [traceback] text ends the
    report, right after its own header line. *)
Theorem error_precedence (d : dict) (e : value) :
  lookup "error" (unwrap d) = Some e ->
  match lookup "traceback" (unwrap d) with
  | Some v => is_str v || negb (truthy v)
  | None => true
  end = true ->
  exists out : string,
    format_response (VDict d) = Return (VStr out)
    /\ starts_with ("=== ERROR ===" ++ nl) out
    /\ includes ("Error: " ++ str e) out
    /\ forall tb : string,
         lookup "traceback" (unwrap d) = Some (VStr tb) -> tb <> "" ->
         exists before,
           out = before ++ nl ++ "=== TRACEBACK ===" ++ nl ++ tb.
Proof.
  intros He Htb.
  exists ("=== ERROR ===" ++ nl ++ "Error: " ++ str e
            ++ traceback_section (lookup "traceback" (unwrap d))).
  split; [| split; [| split]].
  - simpl. unfold format_mapping. rewrite (mem_lookup _ _ _ He).
    now rewrite (error_report_text _ _ He Htb).
  - eexists. rewrite append_assoc. reflexivity.
  - exists ("=== ERROR ===" ++ nl), (traceback_section (lookup "traceback" (unwrap d))).
    rewrite !append_assoc. reflexivity.
  - intros tb Ht Hne. rewrite Ht. unfold traceback_section.
    apply truthy_str in Hne. rewrite Hne.
    exists ("=== ERROR ===" ++ nl ++ "Error: " ++ str e ++ nl).
    rewrite !append_assoc. reflexivity.
Qed.

Lemma error_precedence_witness :
  lookup "error" (unwrap enveloped_error) = Some (VStr "Element not found")
  /\ match lookup "traceback" (unwrap enveloped_error) with
     | Some v => is_str v || negb (truthy v)
     | None => true
     end = true
  /\ exists out : string,
       format_response (VDict enveloped_error) = Return (VStr out)
       /\ starts_with ("=== ERROR ===" ++ nl) out
       /\ includes ("Error: " ++ str (VStr "Element not found")) out
       /\ forall tb : string,
            lookup "traceback" (unwrap enveloped_error) = Some (VStr tb) ->
            tb <> "" ->
            exists before,
              out = before ++ nl ++ "=== TRACEBACK ===" ++ nl ++ tb.
Proof.
  split; [reflexivity |]. split; [reflexivity |].
  exact (error_precedence enveloped_error (VStr "Element not found")
           eq_refl eq_refl).
Defined.

(** A dict that holds [status] and [health] beside [data] has three keys,
    so it is never taken for an envelope. *)
Lemma status_health_not_envelope (d : dict) (s h : value) :
  lookup "status" d = Some s ->
  lookup "health" d = Some h ->
  is_envelope d = false.
Proof.
  intros Hs Hh. unfold is_envelope, mem.
  destruct (lookup "data" d) as [v|] eqn:Hd; [| reflexivity].
  destruct d as [|[k1 v1] [|[k2 v2] [|[k3 v3] d]]];
    [discriminate Hs | | | simpl; now rewrite andb_false_r].
  - cbn [lookup] in Hs, Hh.
    destruct (String.eqb_spec "status" k1), (String.eqb_spec "health" k1);
      subst; try discriminate.
  - cbn [lookup] in Hs, Hh, Hd.
    destruct (String.eqb_spec "status" k1), (String.eqb_spec "health" k1),
             (String.eqb_spec "data" k1),
             (String.eqb_spec "status" k2), (String.eqb_spec "health" k2),
             (String.eqb_spec "data" k2);
      subst; try discriminate.
Qed.

(** C5. A mapping with no [error] and no [output] key whose [status]
    lowers to [active] and whose [health] lowers to [healthy] is rendered
    as exactly: the status header line, the status line, the health line,
    the API line when [api_name] is present, the document line when
    [document_title] is present, in this order.  No other field reaches
    the output. *)
Theorem format_response_status_report (d : dict) (s h : string) :
  mem "error" d = false ->
  mem "output" d = false ->
  lookup "status" d = Some (VStr s) -> lower s = "active" ->
  lookup "health" d = Some (VStr h) -> lower h = "healthy" ->
  format_response (VDict d) =
    Return (VStr (join nl
      (app ["=== REVIT STATUS ==="; "Status: " ++ s; "Health: " ++ h]
         (app (optional_line "API: " (lookup "api_name" d))
              (optional_line "Document: " (lookup "document_title" d)))))).
Proof.
  intros Herr Hout Hs Hls Hh Hlh.
  rewrite (format_response_not_envelope _
             (status_health_not_envelope _ _ _ Hs Hh)).
  unfold format_mapping, status_report, get.
  rewrite Herr, Hs, Hh, (mem_false_lookup _ _ Hout). simpl call_lower.
  cbv beta iota. rewrite Hls, Hlh. cbv beta iota.
  replace ("active" =? "active") with true by reflexivity.
  replace ("healthy" =? "healthy") with true by reflexivity.
  cbv beta iota delta [andb].
  destruct (lookup "api_name" d) as [a|],
           (lookup "document_title" d) as [t|]; reflexivity.
Qed.

Lemma format_response_status_report_witness :
  mem "error" active_status = false
  /\ mem "output" active_status = false
  /\ lookup "status" active_status = Some (VStr "Active")
  /\ lower "Active" = "active"
  /\ lookup "health" active_status = Some (VStr "Healthy")
  /\ lower "Healthy" = "healthy"
  /\ format_response (VDict active_status) =
       Return (VStr ("=== REVIT STATUS ===" ++ nl ++ "Status: Active" ++ nl
                       ++ "Health: Healthy" ++ nl ++ "API: RevitAPI")).
Proof.
  repeat (split; [reflexivity |]).
  exact (format_response_status_report active_status "Active" "Healthy"
           eq_refl eq_refl eq_refl eq_refl eq_refl eq_refl).
Defined.

(** C8 (the code departs from the claim).  A number under [status] or
    [None] under [health] makes [format_response] raise [AttributeError];
    a number under [output] is returned as it is, a value that is not a
    string; a number under [traceback] makes the join of the error report
    raise [TypeError]. *)
Theorem format_response_not_total :
  format_response (VDict numeric_status)
  = Raise (Exn AttributeError "'int' object has no attribute 'lower'")
  /\ format_response (VDict null_health)
     = Raise (Exn AttributeError "'NoneType' object has no attribute 'lower'")
  /\ format_response (VDict numeric_output) = Return (VInt 5)
  /\ format_response (VDict numeric_traceback)
     = Raise (Exn TypeError "sequence item 3: expected str instance, int found").
Proof. repeat split; reflexivity. Qed.

(** On a response typed as the data model has it ([status], [health],
    [output] and [traceback] are text where present), [format_response]
    returns, and returns a string. *)
Lemma format_response_typed_total (v : value) :
  match v with
  | VDict d =>
      text_if_present "status" (unwrap d)
      && text_if_present "health" (unwrap d)
      && text_if_present "output" (unwrap d)
      && text_if_present "traceback" (unwrap d)
  | _ => true
  end = true ->
  exists s : string, format_response v = Return (VStr s).
Proof.
  destruct v; try (intros _; eexists; reflexivity).
  intros H. apply andb_prop in H as [H Htb]. apply andb_prop in H as [H Hout].
  apply andb_prop in H as [Hs Hh]. simpl. unfold format_mapping.
  destruct (mem "error" (unwrap d)) eqn:Herr.
  - unfold mem in Herr.
    destruct (lookup "error" (unwrap d)) as [e|] eqn:He; [| discriminate].
    eexists. apply (error_report_text _ _ He).
    unfold text_if_present in Htb.
    destruct (lookup "traceback" (unwrap d)); [| reflexivity].
    now rewrite Htb.
  - rewrite (call_lower_text _ _ Hs), (call_lower_text _ _ Hh).
    unfold text_if_present in Hout.
    destruct (lookup "output" (unwrap d)) as [o|].
    + destruct o; try discriminate. eexists. reflexivity.
    + destruct (_ && _); eexists; reflexivity.
Qed.

(** ** Properties of the tool handlers *)

(** A handler without a [try] block hands every exception of its transport
    call on to its caller, and logs no error. *)
Lemma place_family_propagates
    (revit_post : string -> value -> option Context -> option string
                  -> result value)
    (family_name : value)
    (type_name x y z rotation level_name properties : option value)
    (ctx : option Context) (e : exn) (tr : list event) :
  let data := VDict (place_family_data family_name type_name x y z rotation
                       level_name properties) in
  revit_post "/place_family/" data ctx None = Raise e ->
  place_family revit_post family_name type_name x y z rotation level_name
    properties ctx tr
  = (app tr [HttpPost "/place_family/" data None], Raise e).
Proof.
  intros data H. unfold place_family, await_post, bind, emit, lift.
  fold data. rewrite H. reflexivity.
Qed.

(** The claim of C9 fails on [place_family] (and on every handler written
    like it, [quick_count] among them): a connection error of the
    transport call leaves the handler as an exception, and nothing is
    logged as an error although a context is present. *)
Lemma place_family_connection_error_escapes :
  recoverable refused = true
  /\ snd (place_family refusing_post (VStr "Chair") None None None None None
            None None (Some Ctx) [])
     = Raise refused
  /\ existsb is_log_error
       (fst (place_family refusing_post (VStr "Chair") None None None None
               None None None (Some Ctx) []))
     = false
  /\ snd (quick_count refusing_post (VStr "Windows") None None None None
            (Some Ctx) [])
     = Raise refused.
Proof. repeat split; reflexivity. Qed.

(** C9 (amended).  The handler [execute_revit_code], whose body is inside
    a [try] block: when its transport call raises a [ConnectionError], a
    [ValueError] or a [RuntimeError], the handler returns the text
    [Error during code execution: ] followed by the text of the exception,
    after logging that same text as an error when a context is present;
    the exception does not leave the handler. *)
Theorem execute_revit_code_catches
    (revit_post : string -> value -> option Context -> option string
                  -> result value)
    (code : value) (description use_transaction : option value)
    (ctx : option Context) (e : exn) (tr : list event) :
  let payload :=
    VDict [("code", code);
           ("description", arg description (VStr "Code execution"));
           ("use_transaction", arg use_transaction (VBool true))] in
  let error_msg := "Error during code execution: " ++ exn_msg e in
  revit_post "/execute_code/" payload ctx (Some "60.0") = Raise e ->
  recoverable e = true ->
  exists info : list event,
    execute_revit_code revit_post code description use_transaction ctx tr
    = (app tr (app info
         (HttpPost "/execute_code/" payload (Some "60.0")
            :: match ctx with Some _ => [LogError error_msg] | None => [] end)),
       Return (VStr error_msg))
    /\ existsb is_log_error info = false.
Proof.
  intros payload error_msg Hpost Hrec.
  unfold execute_revit_code, try_except, await_post, ctx_info, ctx_error,
    bind, emit, lift, ret.
  fold payload. destruct ctx as [c|].
  - eexists [LogInfo _]. cbv beta iota. rewrite Hpost, Hrec. cbv beta iota.
    split; [| reflexivity].
    rewrite <- !app_assoc. reflexivity.
  - exists []. cbv beta iota. rewrite Hpost, Hrec. cbv beta iota.
    split; reflexivity.
Qed.

Lemma execute_revit_code_catches_witness :
  refusing_post "/execute_code/"
    (VDict [("code", VStr "print(doc.Title)");
            ("description", VStr "Code execution");
            ("use_transaction", VBool true)])
    (Some Ctx) (Some "60.0") = Raise refused
  /\ recoverable refused = true
  /\ exists info : list event,
       execute_revit_code refusing_post (VStr "print(doc.Title)") None None
         (Some Ctx) []
       = (app [] (app info
            (HttpPost "/execute_code/"
               (VDict [("code", VStr "print(doc.Title)");
                       ("description", VStr "Code execution");
                       ("use_transaction", VBool true)])
               (Some "60.0")
             :: [LogError
                   ("Error during code execution: " ++ exn_msg refused)])),
          Return (VStr ("Error during code execution: " ++ exn_msg refused)))
       /\ existsb is_log_error info = false.
Proof.
  split; [reflexivity |]. split; [reflexivity |].
  exact (execute_revit_code_catches refusing_post (VStr "print(doc.Title)")
           None None (Some Ctx) refused [] eq_refl eq_refl).
Defined.

(** What each handler posts is the dict its [*_data] function builds. *)
Lemma place_family_posts
    (revit_post : string -> value -> option Context -> option string
                  -> result value)
    (family_name : value)
    (type_name x y z rotation level_name properties : option value)
    (ctx : option Context) :
  payload_of (place_family revit_post family_name type_name x y z rotation
                level_name properties ctx)
  = Some (VDict (place_family_data family_name type_name x y z rotation
                   level_name properties)).
Proof.
  unfold payload_of, place_family, await_post, bind, emit, lift. simpl.
  destruct (revit_post _ _ _ _); reflexivity.
Qed.

Lemma quick_count_posts
    (revit_post : string -> value -> option Context -> option string
                  -> result value)
    (category : value)
    (type_contains type_excludes level in_view : option value)
    (ctx : option Context) :
  payload_of (quick_count revit_post category type_contains type_excludes
                level in_view ctx)
  = Some (VDict (quick_count_data category type_contains type_excludes level
                   in_view)).
Proof.
  unfold payload_of, quick_count, await_post, ctx_info, bind, emit, lift, ret.
  destruct ctx; simpl; destruct (revit_post _ _ _ _); reflexivity.
Qed.

Lemma place_view_on_sheet_posts
    (revit_post : string -> value -> option Context -> option string
                  -> result value)
    (sheet_id view_id sheet_number view_name x y : option value)
    (ctx : option Context) :
  payload_of (place_view_on_sheet revit_post sheet_id view_id sheet_number
                view_name x y ctx)
  = Some (VDict (place_view_on_sheet_data sheet_id view_id sheet_number
                   view_name x y)).
Proof.
  unfold payload_of, place_view_on_sheet, await_post, ctx_info, bind, emit,
    lift, ret.
  destruct ctx; simpl; destruct (revit_post _ _ _ _); reflexivity.
Qed.



(** ** Further properties of [format_response] *)

(** X1. A mapping with more than two keys, without a [data] key, or whose
    [data] is not a mapping is not unwrapped: lines 26-60 see all of its
    keys. *)
Theorem not_unwrapped (d : dict) :
  (2 < len d)%nat
  \/ lookup "data" d = None
  \/ (exists v, lookup "data" d = Some v /\ is_dict v = false) ->
  unwrap d = d /\ format_response (VDict d) = format_mapping d.
Proof.
  intros H.
  assert (E : is_envelope d = false).
  { unfold is_envelope, mem. destruct H as [H | [H | [v [H Hv]]]].
    - apply Nat.leb_gt in H. rewrite H. apply andb_false_r.
    - rewrite H. reflexivity.
    - rewrite H, Hv. reflexivity. }
  split; [apply unwrap_not_envelope, E | apply format_response_not_envelope, E].
Qed.

Lemma not_unwrapped_witness :
  ((2 < len (("data", VDict [("count", VInt 5)]) :: active_status))%nat
   \/ lookup "data" (("data", VDict [("count", VInt 5)]) :: active_status)
      = None
   \/ (exists v,
         lookup "data" (("data", VDict [("count", VInt 5)]) :: active_status)
         = Some v /\ is_dict v = false))
  /\ unwrap (("data", VDict [("count", VInt 5)]) :: active_status)
     = ("data", VDict [("count", VInt 5)]) :: active_status.
Proof.
  assert (H : (2 < len (("data", VDict [("count", VInt 5)])
                          :: active_status))%nat) by (simpl; lia).
  split; [left; exact H |].
  exact (proj1 (not_unwrapped _ (or_introl H))).
Defined.

(** The error report raises exactly on a traceback that counts as true and
    is not text. *)
Lemma error_report_raises (w : dict) (tb : value) :
  lookup "traceback" w = Some tb ->
  truthy tb = true -> is_str tb = false ->
  error_report w =
    Raise (Exn TypeError ("sequence item 3: expected str instance, "
                            ++ type_name tb ++ " found")).
Proof.
  intros Ht T S. unfold error_report, get. rewrite Ht, T.
  destruct tb; try discriminate S; reflexivity.
Qed.

Lemma call_lower_raises (k : string) (w : dict) :
  text_if_present k w = false ->
  exists v, lookup k w = Some v /\ is_str v = false
            /\ call_lower (get k (VStr "") w)
               = Raise (Exn AttributeError
                          ("'" ++ type_name v
                               ++ "' object has no attribute 'lower'")).
Proof.
  unfold text_if_present, get. destruct (lookup k w) as [v|]; [| discriminate].
  intros Hv. exists v. split; [reflexivity |]. split; [exact Hv |].
  destruct v; try discriminate Hv; reflexivity.
Qed.

(** X2. A mapping whose working mapping has a crash shape makes
    [format_response] raise: with no [error] key and a [status] or
    [health] that is not text it is the [AttributeError] of line 40 or 41;
    with an [error] key and a traceback that counts as true and is not
    text nothing is returned either. *)
Theorem crash_shape_raises (d : dict) :
  crash_shape (unwrap d) = true ->
  exists e, format_response (VDict d) = Raise e
            /\ (mem "error" (unwrap d) = false ->
                exn_cls e = AttributeError).
Proof.
  intros C. simpl. unfold format_mapping.
  unfold crash_shape in C. destruct (mem "error" (unwrap d)).
  - destruct (lookup "traceback" (unwrap d)) as [tb|] eqn:Ht;
      [| discriminate].
    apply andb_prop in C as [T S]. apply negb_true_iff in S.
    rewrite (error_report_raises _ _ Ht T S). eexists.
    split; [reflexivity | discriminate].
  - apply negb_true_iff in C.
    destruct (text_if_present "status" (unwrap d)) eqn:Hs.
    + simpl in C. destruct (call_lower_raises _ _ C) as [x [_ [_ E]]].
      rewrite (call_lower_text _ _ Hs), E. eexists.
      split; [reflexivity | reflexivity].
    + destruct (call_lower_raises _ _ Hs) as [x [_ [_ E]]].
      rewrite E. eexists. split; [reflexivity | reflexivity].
Qed.

Lemma crash_shape_raises_witness :
  crash_shape (unwrap null_health) = true
  /\ exists e, format_response (VDict null_health) = Raise e
               /\ (mem "error" (unwrap null_health) = false ->
                   exn_cls e = AttributeError).
Proof.
  split; [reflexivity |].
  exact (crash_shape_raises null_health eq_refl).
Defined.

(** The exceptions of [format_response] are outside the [except] clause
    of [execute_revit_code]. *)
Lemma format_response_raise_class (v : value) (e : exn) :
  format_response v = Raise e ->
  exn_cls e = AttributeError \/ exn_cls e = TypeError.
Proof.
  intros He. destruct v; try discriminate He.
  simpl in He. unfold format_mapping in He.
  destruct (mem "error" (unwrap d)).
  - unfold error_report in He.
    destruct (truthy _); [| discriminate].
    destruct (get "traceback" _ _); inversion He; right; reflexivity.
  - destruct (get "status" (VStr "") (unwrap d)); simpl in He;
      try (inversion He; left; reflexivity).
    destruct (get "health" (VStr "") (unwrap d)); simpl in He;
      try (inversion He; left; reflexivity).
    destruct (lookup "output" (unwrap d)); [discriminate |].
    destruct (_ && _) in He; discriminate.
Qed.

Lemma format_response_raise_not_recoverable (v : value) (e : exn) :
  format_response v = Raise e -> recoverable e = false.
Proof.
  intros He. unfold recoverable.
  destruct (format_response_raise_class _ _ He) as [-> | ->]; reflexivity.
Qed.

(** X4. A result that is not a string can only be the value under
    [output] of a working mapping without [error]. *)
Theorem non_text_result_is_output (v x : value) :
  format_response v = Return x ->
  is_str x = false ->
  exists d, v = VDict d
            /\ lookup "output" (unwrap d) = Some x
            /\ mem "error" (unwrap d) = false.
Proof.
  intros H Hx. destruct v;
    try (simpl in H; inversion H; subst; discriminate Hx).
  exists d. split; [reflexivity |]. simpl in H. unfold format_mapping in H.
  destruct (mem "error" (unwrap d)) eqn:Herr.
  - unfold error_report in H. destruct (truthy _).
    + destruct (get "traceback" _ _); inversion H; subst; discriminate Hx.
    + inversion H; subst; discriminate Hx.
  - destruct (call_lower _); [| discriminate].
    destruct (call_lower _); [| discriminate].
    destruct (lookup "output" (unwrap d)) as [o|].
    + inversion H; subst. split; reflexivity.
    + destruct (_ && _) in H; inversion H; subst; discriminate Hx.
Qed.

Lemma non_text_result_is_output_witness :
  format_response (VDict numeric_output) = Return (VInt 5)
  /\ is_str (VInt 5) = false
  /\ exists d, VDict numeric_output = VDict d
               /\ lookup "output" (unwrap d) = Some (VInt 5)
               /\ mem "error" (unwrap d) = false.
Proof.
  split; [reflexivity |]. split; [reflexivity |].
  exact (non_text_result_is_output (VDict numeric_output) (VInt 5)
           eq_refl eq_refl).
Defined.

(** X5. The fallback: a working mapping with no [error] and no [output],
    whose [status] and [health] are text where present and do not both
    match, is serialised whole by [json.dumps].  An active status alone,
    without a healthy [health], is not given the status report. *)
Theorem fallback_json (d : dict) :
  mem "error" (unwrap d) = false ->
  mem "output" (unwrap d) = false ->
  text_if_present "status" (unwrap d) = true ->
  text_if_present "health" (unwrap d) = true ->
  status_shape (unwrap d) = false ->
  format_response (VDict d) = Return (VStr (Json.dumps (VDict (unwrap d)))).
Proof.
  intros Herr Hout Hs Hh Hshape. simpl. unfold format_mapping.
  rewrite Herr, (call_lower_text _ _ Hs), (call_lower_text _ _ Hh),
    (mem_false_lookup _ _ Hout).
  unfold status_shape in Hshape. rewrite Hshape. reflexivity.
Qed.

Lemma fallback_json_witness :
  mem "error" (unwrap [("status", VStr "Active")]) = false
  /\ mem "output" (unwrap [("status", VStr "Active")]) = false
  /\ text_if_present "status" (unwrap [("status", VStr "Active")]) = true
  /\ text_if_present "health" (unwrap [("status", VStr "Active")]) = true
  /\ status_shape (unwrap [("status", VStr "Active")]) = false
  /\ format_response (VDict [("status", VStr "Active")])
     = Return (VStr (Json.dumps (VDict [("status", VStr "Active")]))).
Proof.
  repeat (split; [reflexivity |]).
  exact (fallback_json [("status", VStr "Active")]
           eq_refl eq_refl eq_refl eq_refl eq_refl).
Defined.

(** ** Further properties of the tool handlers *)

(** Unfolds a call down to its transport call and the test of its result. *)
Ltac run_tool :=
  cbv beta iota zeta delta
    [invoke get_revit_status get_revit_model_info place_family
     place_workplane_families list_families list_family_categories
     execute_revit_code get_active_selection inspect_selected_element
     inspect_element get_link_status quick_count get_element_parameter
     set_element_parameter get_all_parameters set_parameters_bulk
     set_parameters_multi_elements query_ifc_elements
     get_ifc_element_properties batch_update create_sheet
     place_view_on_sheet create_walls_at_lines batch_family_placement
     place_workplane_windows coordinate_converter
     bind emit lift ret ctx_info ctx_info_of ctx_error try_except
     await_get await_post result_map app fst snd].

Ltac split_results :=
  repeat match goal with
         | |- context [match ?x with Return _ => _ | Raise _ => _ end] =>
             let E := fresh "E" in destruct x eqn:E;
             cbv beta iota zeta delta [app fst snd]
         | |- context [if recoverable ?e then _ else _] =>
             let R := fresh "R" in destruct (recoverable e) eqn:R;
             cbv beta iota zeta delta [app fst snd]
         end.

(** X6. Without a context no tool writes a log entry, whatever the
    transport answers. *)
Theorem no_context_no_log (revit_get : get_fn) (revit_post : post_fn)
    (c : call) :
  existsb is_log (fst (invoke revit_get revit_post c None [])) = false.
Proof.
  destruct c; run_tool; split_results; reflexivity.
Qed.

(** X7. A tool calls the transport at most once, and exactly once when it
    runs without a context or when it returns: there is no retry, and no
    result without a transport call. *)
Theorem one_transport_call (revit_get : get_fn) (revit_post : post_fn)
    (c : call) (ctx : option Context) :
  (http_count (fst (invoke revit_get revit_post c ctx [])) <= 1)%nat
  /\ (ctx = None ->
      http_count (fst (invoke revit_get revit_post c ctx [])) = 1%nat)
  /\ (forall v,
        snd (invoke revit_get revit_post c ctx []) = Return v ->
        http_count (fst (invoke revit_get revit_post c ctx [])) = 1%nat).
Proof.
  split; [| split].
  - destruct c, ctx; run_tool; split_results; cbv; lia.
  - intros ->. destruct c; run_tool; split_results; reflexivity.
  - intros v. destruct c, ctx; run_tool; split_results;
      intros H; try discriminate H; reflexivity.
Qed.

Lemma one_transport_call_witness :
  http_count
    (fst (invoke refusing_get refusing_post
            (Quick_count (VStr "Windows") None None None None) None []))
  = 1%nat.
Proof.
  exact (proj1 (proj2 (one_transport_call refusing_get refusing_post
                         (Quick_count (VStr "Windows") None None None None)
                         None)) eq_refl).
Defined.



(** X9. Every tool other than [execute_revit_code] is written without a
    [try]: an exception its transport call raises, of any class, leaves
    the tool as it is, and the tool never logs an error. *)
Theorem transport_exception_propagates (revit_get : get_fn)
    (revit_post : post_fn) (c : call) (ctx : option Context)
    (ev : event) (e : exn) :
  tool_name c <> "execute_revit_code" ->
  In ev (fst (invoke revit_get revit_post c ctx [])) ->
  answer revit_get revit_post ctx ev = Some (Raise e) ->
  snd (invoke revit_get revit_post c ctx []) = Raise e
  /\ existsb is_log_error (fst (invoke revit_get revit_post c ctx [])) = false.
Proof.
  intros Hname.
  destruct c; try (exfalso; apply Hname; reflexivity); clear Hname;
    destruct ctx; run_tool; split_results;
    cbn [In]; intros Hin Hans;
    repeat match goal with
           | H : _ \/ _ |- _ => destruct H as [H | H]
           | H : False |- _ => destruct H
           end;
    subst ev; cbn [answer] in Hans; try discriminate Hans;
    split; try reflexivity; congruence.
Qed.

Lemma transport_exception_propagates_witness :
  tool_name (Batch_update (VList [])) <> "execute_revit_code"
  /\ In (HttpPost "/batch_update/" (VDict [("updates", VList [])]) None)
        (fst (invoke refusing_get refusing_post (Batch_update (VList []))
                (Some Ctx) []))
  /\ answer refusing_get refusing_post (Some Ctx)
       (HttpPost "/batch_update/" (VDict [("updates", VList [])]) None)
     = Some (Raise refused)
  /\ snd (invoke refusing_get refusing_post (Batch_update (VList []))
            (Some Ctx) [])
     = Raise refused.
Proof.
  assert (N : tool_name (Batch_update (VList [])) <> "execute_revit_code")
    by discriminate.
  assert (I : In (HttpPost "/batch_update/" (VDict [("updates", VList [])])
                    None)
                 (fst (invoke refusing_get refusing_post
                         (Batch_update (VList [])) (Some Ctx) [])))
    by (right; left; reflexivity).
  split; [exact N |]. split; [exact I |]. split; [reflexivity |].
  exact (proj1 (transport_exception_propagates refusing_get refusing_post
                  (Batch_update (VList [])) (Some Ctx) _ refused N I
                  eq_refl)).
Defined.

(** X10. No [ConnectionError], [ValueError] or [RuntimeError] ever leaves
    [execute_revit_code], wherever in its body it is raised. *)
Theorem execute_revit_code_contains_recoverable (revit_post : post_fn)
    (code : value) (description use_transaction : option value)
    (ctx : option Context) (tr : list event) (e : exn) :
  snd (execute_revit_code revit_post code description use_transaction ctx tr)
  = Raise e ->
  recoverable e = false.
Proof.
  destruct ctx; run_tool; split_results; intros H;
    try discriminate H; injection H as <-; assumption.
Qed.

Lemma execute_revit_code_contains_recoverable_witness :
  snd (execute_revit_code timing_out_post (VStr "print(1)") None None
         (Some Ctx) [])
  = Raise timed_out
  /\ recoverable timed_out = false.
Proof.
  split; [reflexivity |].
  exact (execute_revit_code_contains_recoverable timing_out_post
           (VStr "print(1)") None None (Some Ctx) [] timed_out eq_refl).
Defined.

(** X11. The [try] of [execute_revit_code] lets every other exception
    through, with no error logged: a transport error outside the three
    classes (a timeout), and the [AttributeError] or [TypeError] that
    [format_response] raises on the response. *)
Theorem execute_revit_code_lets_through (revit_post : post_fn)
    (code : value) (description use_transaction : option value)
    (ctx : option Context) (e : exn) :
  let payload :=
    VDict [("code", code);
           ("description", arg description (VStr "Code execution"));
           ("use_transaction", arg use_transaction (VBool true))] in
  let run :=
    execute_revit_code revit_post code description use_transaction ctx [] in
  (revit_post "/execute_code/" payload ctx (Some "60.0") = Raise e
   /\ recoverable e = false
   \/ exists r,
        revit_post "/execute_code/" payload ctx (Some "60.0") = Return r
        /\ format_response r = Raise e) ->
  snd run = Raise e /\ existsb is_log_error (fst run) = false.
Proof.
  intros payload run H. subst run payload.
  destruct H as [[Hp Hr] | [r [Hp Hf]]];
    destruct ctx; run_tool; rewrite Hp; cbv beta iota.
  1,2: rewrite Hr; split; reflexivity.
  all: rewrite Hf, (format_response_raise_not_recoverable _ _ Hf);
    split; reflexivity.
Qed.

Lemma execute_revit_code_lets_through_witness :
  snd (execute_revit_code (answering_post (VDict numeric_status))
         (VStr "print(1)") None None (Some Ctx) [])
  = Raise (Exn AttributeError "'int' object has no attribute 'lower'").
Proof.
  exact (proj1 (execute_revit_code_lets_through
                  (answering_post (VDict numeric_status)) (VStr "print(1)")
                  None None (Some Ctx)
                  (Exn AttributeError "'int' object has no attribute 'lower'")
                  (or_intror (ex_intro _ (VDict numeric_status)
                                (conj eq_refl eq_refl))))).
Defined.

(** Unfolds the payload of a call and the truth tests that shape it. *)
Ltac split_payload :=
  unfold quick_count_data, place_view_on_sheet_data, place_family_data,
    create_walls_at_lines_data, list_families_params, create_sheet_data,
    batch_family_placement_data;
  repeat match goal with
         | |- context [if truthy ?v then _ else _] => destruct (truthy v)
         | |- context [if ne_int ?v ?n then _ else _] => destruct (ne_int v n)
         end.

(** X13. A guarded parameter supplied with a value that counts as false -
    an empty string, an empty list, the id 0, [None] - is left out exactly
    as if it had not been supplied: the payload is the same. *)
Theorem falsy_argument_is_omitted (v : value) :
  truthy v = false ->
  (forall c te lv iv,
      quick_count_data c (Some v) te lv iv = quick_count_data c None te lv iv)
  /\ (forall c tc lv iv,
      quick_count_data c tc (Some v) lv iv = quick_count_data c tc None lv iv)
  /\ (forall c tc te iv,
      quick_count_data c tc te (Some v) iv = quick_count_data c tc te None iv)
  /\ (forall vi sn vn x y,
      place_view_on_sheet_data (Some v) vi sn vn x y
      = place_view_on_sheet_data None vi sn vn x y)
  /\ (forall si sn vn x y,
      place_view_on_sheet_data si (Some v) sn vn x y
      = place_view_on_sheet_data si None sn vn x y)
  /\ (forall si vi vn x y,
      place_view_on_sheet_data si vi (Some v) vn x y
      = place_view_on_sheet_data si vi None vn x y)
  /\ (forall si vi sn x y,
      place_view_on_sheet_data si vi sn (Some v) x y
      = place_view_on_sheet_data si vi sn None x y)
  /\ (forall n sn,
      create_sheet_data n sn (Some v) = create_sheet_data n sn None)
  /\ (forall f p ln,
      batch_family_placement_data f p (Some v) ln
      = batch_family_placement_data f p None ln)
  /\ (forall f p tn,
      batch_family_placement_data f p tn (Some v)
      = batch_family_placement_data f p tn None)
  /\ (forall li ls ln h st,
      create_walls_at_lines_data li ls (Some v) ln h st
      = create_walls_at_lines_data li ls None ln h st)
  /\ (forall li ls wt h st,
      create_walls_at_lines_data li ls wt (Some v) h st
      = create_walls_at_lines_data li ls wt None h st)
  /\ (forall limit,
      list_families_params (Some v) limit = list_families_params None limit).
Proof.
  intros Hv.
  repeat split; intros;
    unfold quick_count_data, place_view_on_sheet_data,
      create_walls_at_lines_data, list_families_params, create_sheet_data,
      batch_family_placement_data;
    cbn [arg]; rewrite Hv; reflexivity.
Qed.

Lemma falsy_argument_is_omitted_witness :
  truthy (VList []) = false
  /\ quick_count_data (VStr "Windows") None (Some (VList [])) None None
     = quick_count_data (VStr "Windows") None None None None.
Proof.
  split; [reflexivity |].
  exact (proj1 (proj2 (falsy_argument_is_omitted (VList []) eq_refl))
           (VStr "Windows") None None None).
Defined.

(** X14. A guarded parameter supplied with a value that counts as true is
    sent under its own key with that very value, whatever the other
    arguments are. *)
Theorem truthy_argument_is_sent (v : value) :
  truthy v = true ->
  (forall c te lv iv,
      lookup "type_contains" (quick_count_data c (Some v) te lv iv) = Some v)
  /\ (forall c tc lv iv,
      lookup "type_excludes" (quick_count_data c tc (Some v) lv iv) = Some v)
  /\ (forall c tc te iv,
      lookup "level" (quick_count_data c tc te (Some v) iv) = Some v)
  /\ (forall vi sn vn x y,
      lookup "sheet_id" (place_view_on_sheet_data (Some v) vi sn vn x y)
      = Some v)
  /\ (forall si sn vn x y,
      lookup "view_id" (place_view_on_sheet_data si (Some v) sn vn x y)
      = Some v)
  /\ (forall si vi vn x y,
      lookup "sheet_number" (place_view_on_sheet_data si vi (Some v) vn x y)
      = Some v)
  /\ (forall si vi sn x y,
      lookup "view_name" (place_view_on_sheet_data si vi sn (Some v) x y)
      = Some v)
  /\ (forall n sn,
      lookup "title_block_name" (create_sheet_data n sn (Some v)) = Some v)
  /\ (forall f p ln,
      lookup "type_name" (batch_family_placement_data f p (Some v) ln)
      = Some v)
  /\ (forall f p tn,
      lookup "level_name" (batch_family_placement_data f p tn (Some v))
      = Some v)
  /\ (forall li ls ln h st,
      lookup "wall_type_name"
        (create_walls_at_lines_data li ls (Some v) ln h st) = Some v)
  /\ (forall li ls wt h st,
      lookup "level_name"
        (create_walls_at_lines_data li ls wt (Some v) h st) = Some v)
  /\ (forall limit,
      lookup "contains" (list_families_params (Some v) limit) = Some v).
Proof.
  intros Hv.
  repeat split; intros;
    unfold quick_count_data, place_view_on_sheet_data,
      create_walls_at_lines_data, list_families_params, create_sheet_data,
      batch_family_placement_data;
    cbn [arg]; rewrite Hv; split_payload; reflexivity.
Qed.

Lemma truthy_argument_is_sent_witness :
  truthy (VStr "31_K") = true
  /\ lookup "type_contains"
       (quick_count_data (VStr "Windows") (Some (VStr "31_K"))
          (Some (VList [VStr "SK"; VStr "H"])) None None)
     = Some (VStr "31_K").
Proof.
  split; [reflexivity |].
  exact (proj1 (truthy_argument_is_sent (VStr "31_K") eq_refl)
           (VStr "Windows") (Some (VList [VStr "SK"; VStr "H"])) None None).
Defined.

(** X15. [list_families] sends [limit] only when it differs from 50, and
    then as the text of the number, not as the number; a [limit] of 50,
    supplied or not, is left out. *)
Theorem list_families_limit (contains : option value) :
  (forall v, ne_int v 50 = true ->
             lookup "limit" (list_families_params contains (Some v))
             = Some (VStr (str v)))
  /\ list_families_params contains (Some (VInt 50))
     = list_families_params contains None
  /\ mem "limit" (list_families_params contains None) = false.
Proof.
  split; [| split].
  - intros v Hv. unfold list_families_params. cbn [arg]. rewrite Hv.
    destruct (truthy (arg contains VNone)); reflexivity.
  - reflexivity.
  - unfold list_families_params. cbn [arg].
    change (ne_int (VInt 50) 50) with false.
    destruct (truthy (arg contains VNone)); reflexivity.
Qed.

Lemma list_families_limit_witness :
  ne_int (VInt 10) 50 = true
  /\ lookup "limit"
       (list_families_params (Some (VStr "Chair")) (Some (VInt 10)))
     = Some (VStr "10").
Proof.
  split; [reflexivity |].
  exact (proj1 (list_families_limit (Some (VStr "Chair"))) (VInt 10) eq_refl).
Defined.

(** X16. The filters [query_ifc_elements] names in its log entry: the
    list is empty - the entry reads [all] - exactly when none of link,
    category, ifc_class and parameter name is set; a [parameter_value]
    without a [parameter_name] is not named at all, and a [parameter_name]
    without a value comes last, shown with [*]. *)
Theorem query_ifc_filters_named
    (link_name category ifc_class parameter_name parameter_value : value) :
  (query_ifc_filters link_name category ifc_class parameter_name
     parameter_value = []
   <-> truthy link_name = false /\ truthy category = false
       /\ truthy ifc_class = false /\ truthy parameter_name = false)
  /\ (truthy parameter_name = false ->
      query_ifc_filters link_name category ifc_class parameter_name
        parameter_value
      = query_ifc_filters link_name category ifc_class parameter_name
          (VStr ""))
  /\ (truthy parameter_name = true -> truthy parameter_value = false ->
      exists before,
        query_ifc_filters link_name category ifc_class parameter_name
          parameter_value
        = app before [str parameter_name ++ "=*"]).
Proof.
  split; [| split].
  - unfold query_ifc_filters.
    destruct (truthy link_name), (truthy category), (truthy ifc_class),
      (truthy parameter_name); cbn [app];
      (split; [intros H; try discriminate H; tauto
              | intros [? [? [? ?]]]; try discriminate; reflexivity]).
  - intros Hpn. unfold query_ifc_filters. rewrite Hpn. reflexivity.
  - intros Hpn Hpv. unfold query_ifc_filters, or_else.
    rewrite Hpn, Hpv. cbn [str]. eexists. reflexivity.
Qed.

Lemma query_ifc_filters_named_witness :
  truthy (VStr "") = false
  /\ query_ifc_filters (VStr "Architecture") (VStr "Walls") (VStr "")
       (VStr "") (VStr "External")
     = query_ifc_filters (VStr "Architecture") (VStr "Walls") (VStr "")
         (VStr "") (VStr "").
Proof.
  split; [reflexivity |].
  exact (proj1 (proj2 (query_ifc_filters_named (VStr "Architecture")
                         (VStr "Walls") (VStr "") (VStr "")
                         (VStr "External"))) eq_refl).
Defined.

(** X17. With a context, [create_walls_at_lines] logs the total number of
    lines it was given in either form before it posts; a list that is not
    supplied counts as none. *)
Theorem create_walls_logged_count (revit_post : post_fn)
    (line_ids lines : option (list value))
    (wall_type_name level_name height structural : option value) :
  let count :=
    (length (match line_ids with Some l => l | None => [] end)
     + length (match lines with Some l => l | None => [] end))%nat in
  let li := option_map VList line_ids in
  let ls := option_map VList lines in
  fst (create_walls_at_lines revit_post li ls wall_type_name level_name
         height structural (Some Ctx) [])
  = [LogInfo ("Creating walls from " ++ nat_str count ++ " lines");
     HttpPost "/create_walls_at_lines/"
       (VDict (create_walls_at_lines_data li ls wall_type_name level_name
                 height structural)) None].
Proof.
  destruct line_ids as [[|a l1]|], lines as [[|b l2]|];
    cbv zeta; run_tool; cbn [option_map arg or_else truthy len_of length];
    cbv beta iota; split_results; reflexivity.
Qed.

Ltac find_member :=
  match goal with
  | |- _ \/ _ => (left; find_member) || (right; find_member)
  | |- _ = _ => reflexivity
  end.

(** X18. The tools the modules register have pairwise different names -
    [get_link_status] is registered by [selection_tools] alone - and every
    tool is among those [register_tools] registers, whatever the modules
    outside these sources add. *)
Theorem registered_names_distinct :
  distinct (Registry.register_tools [] [] []) = true
  /\ length (Registry.register_tools [] [] []) = 26%nat
  /\ forall (view_tools model_tools colors_tools : list string) (c : call),
       In (tool_name c)
          (Registry.register_tools view_tools model_tools colors_tools).
Proof.
  split; [reflexivity |]. split; [reflexivity |].
  intros vt mt ct c. unfold Registry.register_tools.
  repeat rewrite in_app_iff.
  destruct c; cbn [tool_name];
    cbv [Registry.register_status_tools Registry.register_family_tools
         Registry.register_code_execution_tools
         Registry.register_selection_tools Registry.register_parameter_tools
         Registry.register_ifc_tools Registry.register_modification_tools];
    cbn [In]; find_member.
Qed.

(** X19. A failure text of the transport reaches the caller unchanged
    through every tool that made its transport call. *)
Theorem failure_text_passes_through (c : call) (ctx : option Context)
    (s : string) :
  let run := invoke (answering_get (VStr s)) (answering_post (VStr s)) c ctx
               [] in
  http_count (fst run) = 1%nat ->
  snd run = Return (VStr s).
Proof.
  cbv zeta.
  destruct c, ctx; run_tool;
    cbv beta iota delta [answering_get answering_post];
    change (format_response (VStr s)) with (Return (VStr s));
    cbv beta iota;
    split_results; intros H; try discriminate H; reflexivity.
Qed.

Lemma failure_text_passes_through_witness :
  http_count
    (fst (invoke (answering_get (VStr "Connection refused"))
            (answering_post (VStr "Connection refused"))
            (Batch_update (VList [VInt 1])) (Some Ctx) []))
  = 1%nat
  /\ snd (invoke (answering_get (VStr "Connection refused"))
            (answering_post (VStr "Connection refused"))
            (Batch_update (VList [VInt 1])) (Some Ctx) [])
     = Return (VStr "Connection refused").
Proof.
  split; [reflexivity |].
  exact (failure_text_passes_through (Batch_update (VList [VInt 1]))
           (Some Ctx) "Connection refused" eq_refl).
Defined.

(** X20. The context only adds log entries: the request a tool sends with
    a context - path, payload or query, timeout - is the request it sends
    without one. *)
Theorem context_does_not_change_request (revit_get : get_fn)
    (revit_post : post_fn) (c : call) (ev : event) :
  In ev (fst (invoke revit_get revit_post c (Some Ctx) [])) ->
  is_http ev = true ->
  In ev (fst (invoke revit_get revit_post c None [])).
Proof.
  destruct c; run_tool; split_results; cbn [In]; intros Hin Hh;
    repeat match goal with
           | H : _ \/ _ |- _ => destruct H as [H | H]
           | H : False |- _ => destruct H
           end;
    subst ev; try discriminate Hh; left; reflexivity.
Qed.

Lemma context_does_not_change_request_witness :
  In (HttpGet "/inspect_element/12345" None None)
     (fst (invoke refusing_get refusing_post (Inspect_element (VInt 12345))
             (Some Ctx) []))
  /\ is_http (HttpGet "/inspect_element/12345" None None) = true
  /\ In (HttpGet "/inspect_element/12345" None None)
        (fst (invoke refusing_get refusing_post
                (Inspect_element (VInt 12345)) None [])).
Proof.
  assert (I : In (HttpGet "/inspect_element/12345" None None)
                 (fst (invoke refusing_get refusing_post
                         (Inspect_element (VInt 12345)) (Some Ctx) [])))
    by (right; left; reflexivity).
  split; [exact I |]. split; [reflexivity |].
  exact (context_does_not_change_request refusing_get refusing_post
           (Inspect_element (VInt 12345)) _ I eq_refl).
Defined.
